(** * The tf.data service client: tensorflow/python/data/experimental/ops/data_service_ops.py

    A shallow embedding of the Python module and the properties of its
    argument validation, service-string parsing, compression negotiation
    and job-name derivation. *)

From Equations Require Import Equations.
From Stdlib Require Import String Ascii ZArith List Lia Bool Arith.
From Stdlib Require Import DecimalString DecimalPos DecimalZ.
Import ListNotations.
Local Open Scope string_scope.

Set Warnings "-register-all".

(** ** Python values *)

(** Plain Python values an argument may hold.  TensorFlow tensors, whose
    [==] is overloaded, are not of this type; the arguments that may be
    tensors have types of their own below. *)
Inductive pyobj : Type :=
| PyNone
| PyInt (z : Z)
| PyStr (s : string)
| PyTuple (items : list pyobj).

(** What [str.format] is asked to render: a value, or the type of a value;
    and the errors whose text TensorFlow or the interpreter writes: an int
    that does not fit int64, a value that is not a str where one is
    required, a function called with another number of arguments than the
    one it takes. *)
Inductive fmt_arg : Type :=
| FValue (o : pyobj)
| FTypeOf (o : pyobj)
| FTensor (value : string)
| FTypeOfTensor
| FNotInt64 (z : Z)
| FNotStr (o : pyobj)
| FArity (given : nat).

Inductive exn : Type :=
| ValueError (args : list pyobj)
| TypeError (args : list pyobj)
| UnboundLocalError (name : string)
| NameError (name : string).

(** ** Results of calls that may raise *)

Inductive result (A : Type) : Type :=
| Ok (a : A)
| Raise (e : exn).
Arguments Ok {A} a.
Arguments Raise {A} e.

Definition bind {A B : Type} (c : result A) (k : A -> result B) : result B :=
  match c with
  | Ok a => k a
  | Raise e => Raise e
  end.

Declare Scope result_scope.
Delimit Scope result_scope with result.
Notation "x <- c1 ;; c2" := (bind c1 (fun x => c2))
  (at level 61, c1 at next level, right associativity) : result_scope.
Notation "c1 ;; c2" := (bind c1 (fun _ => c2))
  (at level 61, right associativity) : result_scope.
Local Open Scope result_scope.

Definition is_Ok {A : Type} (c : result A) : bool :=
  match c with Ok _ => true | Raise _ => false end.

(** [a == b] on plain values. *)
Fixpoint py_eqb (a b : pyobj) : bool :=
  match a, b with
  | PyNone, PyNone => true
  | PyInt x, PyInt y => Z.eqb x y
  | PyStr s, PyStr t => String.eqb s t
  | PyTuple xs, PyTuple ys =>
      (fix items_eqb (xs ys : list pyobj) : bool :=
         match xs, ys with
         | [], [] => true
         | x :: xs', y :: ys' => py_eqb x y && items_eqb xs' ys'
         | _, _ => false
         end) xs ys
  | _, _ => false
  end.

(** [x in l]. *)
Definition py_in (x : pyobj) (l : list pyobj) : bool :=
  existsb (fun y => py_eqb x y) l.

(** [isinstance(x, six.string_types)]. *)
Definition is_string (o : pyobj) : bool :=
  match o with PyStr _ => true | _ => false end.

(** Truth value of a str: false exactly for the empty one. *)
Definition str_truth (s : string) : bool :=
  match s with EmptyString => false | String _ _ => true end.

(** [repr] of a str made of letters, digits and underscores: the text
    between single quotes.  It is applied to the module's constants only. *)
Definition repr_plain (s : string) : string := "'" ++ s ++ "'".

(** [str] of a list, from the [repr] of its items. *)
Definition str_list (items : list string) : string :=
  "[" ++ String.concat ", " items ++ "]".

(** [sub] occurs in [s]. *)
Definition contains (sub s : string) : Prop :=
  exists pre post : string, s = pre ++ sub ++ post.

(** Every character of [s] passes [ok]. *)
Fixpoint all_chars (ok : ascii -> bool) (s : string) : bool :=
  match s with
  | EmptyString => true
  | String c s' => ok c && all_chars ok s'
  end.

(** The separator [string_join] is given at line 953 is the slash. *)
Definition not_slash (c : ascii) : bool := negb (Ascii.eqb c "/").

(** ** str.split *)

(** [strip_prefix p s] is the rest of [s] after its prefix [p], if [s]
    starts with [p]. *)
Fixpoint strip_prefix (p s : string) : option string :=
  match p, s with
  | EmptyString, _ => Some s
  | String a p', String b s' =>
      if Ascii.eqb a b then strip_prefix p' s' else None
  | String _ _, EmptyString => None
  end.

(** [find_sep sep s] cuts [s] at the leftmost occurrence of [sep]: the text
    before it and the text after it. *)
Fixpoint find_sep (sep s : string) : option (string * string) :=
  match strip_prefix sep s with
  | Some rest => Some (EmptyString, rest)
  | None =>
      match s with
      | EmptyString => None
      | String c s' =>
          match find_sep sep s' with
          | Some (before, after) => Some (String c before, after)
          | None => None
          end
      end
  end.

Lemma strip_prefix_app (p s rest : string) :
  strip_prefix p s = Some rest -> s = p ++ rest.
Proof.
  revert s; induction p as [|a p IH]; intros s H; simpl in *.
  - congruence.
  - destruct s as [|b s]; [discriminate|].
    destruct (Ascii.eqb_spec a b) as [->|]; [|discriminate].
    simpl. f_equal. now apply IH.
Qed.

Lemma find_sep_app (sep s before after : string) :
  find_sep sep s = Some (before, after) -> s = before ++ sep ++ after.
Proof.
  revert before after; induction s as [|c s IH]; intros before after H.
  - simpl in H. destruct (strip_prefix sep "") eqn:E; [|discriminate].
    injection H as <- <-. now apply strip_prefix_app in E.
  - cbn [find_sep] in H.
    destruct (strip_prefix sep (String c s)) eqn:E.
    + injection H as <- <-. now apply strip_prefix_app in E.
    + destruct (find_sep sep s) as [[b a]|] eqn:F; [|discriminate].
      injection H as <- <-. simpl. f_equal. now apply IH.
Qed.

Lemma length_app (a b : string) :
  String.length (a ++ b) = String.length a + String.length b.
Proof. induction a; simpl; congruence. Qed.

Lemma find_sep_shorter (c : ascii) (sep' s before after : string) :
  find_sep (String c sep') s = Some (before, after) ->
  String.length after < String.length s.
Proof.
  intros H. apply find_sep_app in H. subst s.
  rewrite !length_app. simpl. lia.
Qed.

Definition inspect {A : Type} (a : A) : {b : A | a = b} := exist _ a eq_refl.

(** [s.split(sep)] for a non-empty separator [String c sep']: cut at the
    leftmost occurrence and go on with what follows it. *)
Equations? split_nonempty (c : ascii) (sep' : string) (s : string)
  : list string by wf (String.length s) lt :=
  split_nonempty c sep' s with inspect (find_sep (String c sep') s) => {
    | exist _ None _ => [s];
    | exist _ (Some (before, after)) e =>
        before :: split_nonempty c sep' after }.
Proof. eapply find_sep_shorter; eassumption. Qed.

(** [s.split(sep)]; Python raises ValueError for an empty separator. *)
Definition py_split (s sep : string) : result (list string) :=
  match sep with
  | EmptyString => Raise (ValueError [PyStr "empty separator"])
  | String c sep' => Ok (split_nonempty c sep' s)
  end.

(** Number of positions of [s] where [sep] starts. *)
Fixpoint count_occ (sep s : string) : nat :=
  (match strip_prefix sep s with Some _ => 1 | None => 0 end) +
  match s with
  | EmptyString => 0
  | String _ s' => count_occ sep s'
  end.

(** ** Tensors, element specs and datasets *)

(** The values of an int64 tensor. *)
Definition in_int64 (z : Z) : bool :=
  (- 2 ^ 63 <=? z)%Z && (z <? 2 ^ 63)%Z.

Record int64 : Type := {
  int64_value : Z;
  int64_in_range : in_int64 int64_value = true }.

(** An optional int that is None or fits int64. *)
Definition opt_in_int64 (x : option Z) : bool :=
  match x with None => true | Some z => in_int64 z end.

(** The first of the given ints that does not fit int64. *)
Fixpoint first_not_int64 (l : list (option Z)) : option Z :=
  match l with
  | [] => None
  | None :: l' => first_not_int64 l'
  | Some z :: l' => if in_int64 z then first_not_int64 l' else Some z
  end.

Inductive dtype : Type := DT_INT64 | DT_STRING | DT_VARIANT.

(** [ops.convert_to_tensor(value, dtype, name)] on a value of the dtype's
    Python type. *)
Inductive Tensor : Type :=
| Int64Tensor (value : Z) (name : string)
| StringTensor (value : string) (name : string).

Inductive ElementSpec : Type :=
| TensorSpec (shape : list Z) (dt : dtype)
| TupleSpec (components : list ElementSpec).

Inductive ExternalStatePolicy : Type := WARN | IGNORE | FAIL.

Inductive AutoShardPolicy : Type :=
| AutoShard_OFF | AutoShard_AUTO | AutoShard_FILE | AutoShard_DATA.

(** The fields of [tf.data.Options] this module reads or writes; [None] is
    an option left at its default. *)
Record Options : Type := {
  experimental_external_state_policy : option ExternalStatePolicy;
  auto_shard_policy : option AutoShardPolicy }.

Definition Options_new : Options :=
  {| experimental_external_state_policy := None; auto_shard_policy := None |}.

Definition set_auto_shard_policy (o : Options) (p : AutoShardPolicy) : Options :=
  {| experimental_external_state_policy := experimental_external_state_policy o;
     auto_shard_policy := Some p |}.

Definition or_else {A : Type} (a b : option A) : option A :=
  match a with Some _ => a | None => b end.

(** Options set later take precedence over the options of the input. *)
Definition Options_merge (base over : Options) : Options :=
  {| experimental_external_state_policy :=
       or_else (experimental_external_state_policy over)
               (experimental_external_state_policy base);
     auto_shard_policy :=
       or_else (auto_shard_policy over) (auto_shard_policy base) |}.

(** A job name that passed the isinstance test of [_from_dataset_id]: a str
    or a string tensor. *)
Inductive job_name_t : Type :=
| JobStr (s : string)
| JobTensor (value : string).

(** The [job_name] argument as a caller may give it: a plain value (None
    included) or a tensor. *)
Inductive JobName : Type :=
| JobNameObj (o : pyobj)
| JobNameTensor (value : string).

(** The attributes [__init__] sets on [self]. *)
Record DataServiceDatasetV2 : Type := {
  _dataset_id : Tensor;
  _processing_mode : Tensor;
  _address : Tensor;
  _protocol : Tensor;
  _job_name : Tensor;
  _consumer_index : Tensor;
  _num_consumers : Tensor;
  _max_outstanding_requests : Tensor;
  _max_request_pipelining_per_worker : Tensor;
  _element_spec : ElementSpec;
  _target_workers : string }.

(** [gen_experimental_dataset_ops.dummy_iteration_counter()]. *)
Inductive iteration_counter : Type := dummy_iteration_counter.

(** The op [gen_experimental_dataset_ops.data_service_dataset_v2] and its
    inputs. *)
Record data_service_dataset_v2 : Type := {
  op_self : DataServiceDatasetV2;
  op_task_refresh_interval_hint_ms : Z;
  op_iteration_counter : iteration_counter;
  op_compat_kwargs : list (string * string);
  op_flat_structure : ElementSpec }.

(** The functions this module maps over a dataset. *)
Inductive MapFn : Type :=
| compress
| identity
| uncompress (output_spec : ElementSpec).

(** A dataset, as the pipeline of transformations that built it. *)
Inductive Dataset : Type :=
| InputDataset (name : string) (element_spec : ElementSpec) (options : Options)
| DataServiceDataset (self : DataServiceDatasetV2)
                     (variant_tensor : data_service_dataset_v2)
| MapDataset (input : Dataset) (f : MapFn) (num_parallel_calls : int64)
| PrefetchDataset (input : Dataset) (buffer_size : int64)
| DebugOptionsDataset (input : Dataset)
| OptionsDataset (input : Dataset) (options : Options).

(** [dataset.options()]. *)
Fixpoint Dataset_options (d : Dataset) : Options :=
  match d with
  | InputDataset _ _ o => o
  | DataServiceDataset _ _ => Options_new
  | MapDataset input _ _ => Dataset_options input
  | PrefetchDataset input _ => Dataset_options input
  | DebugOptionsDataset input => Dataset_options input
  | OptionsDataset input o => Options_merge (Dataset_options input) o
  end.

(** [dataset.element_spec]. *)
Fixpoint Dataset_element_spec (d : Dataset) : ElementSpec :=
  match d with
  | InputDataset _ spec _ => spec
  | DataServiceDataset self _ => _element_spec self
  | MapDataset input compress _ => TensorSpec [] DT_VARIANT
  | MapDataset input identity _ =>
      match Dataset_element_spec input with
      | TupleSpec [component] => component
      | spec => spec
      end
  | MapDataset input (uncompress output_spec) _ => output_spec
  | PrefetchDataset input _ => Dataset_element_spec input
  | DebugOptionsDataset input => Dataset_element_spec input
  | OptionsDataset input _ => Dataset_element_spec input
  end.

(** tf.data calls the function of [map] with a tuple element's components
    as separate arguments: an element is one argument unless it is a tuple
    of another number of components than one. *)
Definition single_argument (spec : ElementSpec) : bool :=
  match spec with
  | TensorSpec _ _ => true
  | TupleSpec [_] => true
  | TupleSpec _ => false
  end.

Definition argument_count (spec : ElementSpec) : nat :=
  match spec with
  | TensorSpec _ _ => 1
  | TupleSpec components => List.length components
  end.

(** The transformations of a pipeline, outermost first. *)
Fixpoint map_steps (d : Dataset) : list MapFn :=
  match d with
  | InputDataset _ _ _ => []
  | DataServiceDataset _ _ => []
  | MapDataset input f _ => f :: map_steps input
  | PrefetchDataset input _ => map_steps input
  | DebugOptionsDataset input => map_steps input
  | OptionsDataset input _ => map_steps input
  end.

(** ** The dispatcher, as this client sees it *)

(** One RegisterDataset call: the pipeline sent and where it is sent. *)
Record Registration : Type := {
  reg_dataset : Dataset;
  reg_address : string;
  reg_protocol : string;
  reg_external_state_policy : ExternalStatePolicy }.

(** Calls that may raise and that may register datasets: the registrations
    made so far are threaded through, and kept when a call raises. *)
Definition rpc (A : Type) : Type :=
  list Registration -> result A * list Registration.

Definition rpc_bind {A B : Type} (c : rpc A) (k : A -> rpc B) : rpc B :=
  fun log =>
    match c log with
    | (Ok a, log') => k a log'
    | (Raise e, log') => (Raise e, log')
    end.

Definition lift {A : Type} (c : result A) : rpc A := fun log => (c, log).

Declare Scope rpc_scope.
Delimit Scope rpc_scope with rpc.
Notation "x <- c1 ;; c2" := (rpc_bind c1 (fun x => c2))
  (at level 61, c1 at next level, right associativity) : rpc_scope.
Notation "c1 ;; c2" := (rpc_bind c1 (fun _ => c2))
  (at level 61, right associativity) : rpc_scope.

(** The decimal digits of an integer, after a minus sign for a negative
    one. *)
Definition decimal (z : Z) : string := NilZero.string_of_int (Z.to_int z).

(** [string_ops.string_join(inputs, separator)]. *)
Definition string_join (inputs : list string) (separator : string) : string :=
  String.concat separator inputs.

(** Reading a local variable: unbound until the function assigns it. *)
Definition load_local {A : Type} (name : string) (slot : option A) : result A :=
  match slot with
  | Some v => Ok v
  | None => Raise (UnboundLocalError name)
  end.

(** Reading a name that is neither a local nor a global of the module. *)
Definition load_name {A : Type} (name : string) (slot : option A) : result A :=
  match slot with
  | Some v => Ok v
  | None => Raise (NameError name)
  end.

Definition py_of_option (x : option Z) : pyobj :=
  match x with Some z => PyInt z | None => PyNone end.

Definition option_is_None {A : Type} (x : option A) : bool :=
  match x with None => true | Some _ => false end.

(** [a != b] on an optional int. *)
Definition option_ne (a b : option Z) : bool :=
  negb (py_eqb (py_of_option a) (py_of_option b)).

(** ** The module *)

Definition COMPRESSION_AUTO : pyobj := PyStr "AUTO".
Definition COMPRESSION_NONE : pyobj := PyNone.

Definition ProcessingMode_PARALLEL_EPOCHS : pyobj := PyStr "parallel_epochs".
Definition ProcessingMode_DISTRIBUTED_EPOCH : pyobj := PyStr "distributed_epoch".

(** The keywords [_from_dataset_id] passes to [_DataServiceDataset], and the
    parameters the two classes declare. *)
Definition reader_keywords : list string :=
  ["dataset_id"; "processing_mode"; "address"; "element_spec"; "protocol";
   "data_transfer_protocol"; "job_name"; "consumer_index"; "num_consumers";
   "max_outstanding_requests"; "max_request_pipelining_per_worker";
   "task_refresh_interval_hint_ms"; "target_workers"].

Definition V2_parameters : list string :=
  ["dataset_id"; "processing_mode"; "address"; "element_spec"; "protocol";
   "data_transfer_protocol"; "job_name"; "consumer_index"; "num_consumers";
   "max_outstanding_requests"; "max_request_pipelining_per_worker";
   "task_refresh_interval_hint_ms"; "target_workers"].

Definition V1_parameters : list string :=
  ["dataset_id"; "processing_mode"; "address"; "element_spec"; "protocol";
   "data_transfer_protocol"; "job_name"; "consumer_index"; "num_consumers";
   "max_outstanding_requests"; "max_request_pipelining_per_worker";
   "task_refresh_interval_hint_ms"; "target_worker"].

(** Binding keyword arguments: a keyword the callee does not declare is a
    TypeError, raised before the body runs. *)
Definition bind_keywords (parameters keywords : list string) : result unit :=
  match find (fun k => negb (existsb (String.eqb k) parameters)) keywords with
  | Some k =>
      Raise (TypeError
        [PyStr ("__init__() got an unexpected keyword argument '" ++ k ++ "'")])
  | None => Ok tt
  end.

(** [protocol, address = service] for a tuple: any two items unpack. *)
Definition unpack_service (items : list pyobj) : result (pyobj * pyobj) :=
  match items with
  | [protocol; address] => Ok (protocol, address)
  | [] | [_] =>
      Raise (ValueError
        [PyStr ("not enough values to unpack (expected 2, got " ++
                decimal (Z.of_nat (List.length items)) ++ ")")])
  | _ => Raise (ValueError [PyStr "too many values to unpack (expected 2)"])
  end.

(** A dataset the caller built, for the runs at concrete arguments. *)
Definition range_dataset : Dataset :=
  InputDataset "range" (TensorSpec [] DT_INT64) Options_new.

(** A dataset of pairs, for the runs at concrete arguments. *)
Definition pairs_dataset : Dataset :=
  InputDataset "pairs"
    (TupleSpec [TensorSpec [] DT_INT64; TensorSpec [] DT_STRING]) Options_new.

(** A rendering of values for the runs at concrete arguments. *)
Definition example_format (a : fmt_arg) : string :=
  match a with
  | FValue (PyStr s) => s
  | FValue _ => "<value>"
  | FTensor v => v
  | FTypeOf _ | FTypeOfTensor => "<type>"
  | FNotInt64 _ => "<not an int64>"
  | FNotStr _ => "<not a str>"
  | FArity _ => "<wrong number of arguments>"
  end.

(** Values for the runs at concrete arguments: the autotune marker, and a
    conversion that refuses what the module does not say how to convert. *)
Definition minus_one : int64 :=
  {| int64_value := -1; int64_in_range := eq_refl |}.

Definition example_convert (o : pyobj) (dt : dtype) (name : string)
  : result Tensor :=
  Raise (TypeError [PyStr "<not convertible>"]).

(** A dispatcher for the runs at concrete arguments: it answers every
    registration with the id 1. *)
Definition example_dispatcher (r : Registration) : result int64 :=
  Ok {| int64_value := 1; int64_in_range := eq_refl |}.

(** A dispatcher that cannot be reached. *)
Definition unreachable_dispatcher (r : Registration) : result int64 :=
  Raise (ValueError [PyStr "<unavailable>"]).

Section DataServiceOps.

(** How [str.format] and [%] render a value or a type. *)
Variable py_format : fmt_arg -> string.
(** [_pywrap_utils.TF_DATA_DefaultProtocol()]. *)
Variable TF_DATA_DefaultProtocol : string.
(** [tf2.enabled()]. *)
Variable tf2_enabled : bool.
(** [compat.forward_compatible(year, month, day)]. *)
Variable forward_compatible : Z -> Z -> Z -> bool.
(** [dataset_ops.AUTOTUNE], an int64 constant. *)
Variable AUTOTUNE : int64.
(** What the dispatcher answers to a registration: the id it assigns, an
    int64, or the error of a dispatcher that cannot be reached or refuses. *)
Variable register_dataset_op : Registration -> result int64.
(** [ops.convert_to_tensor(value, dtype, name)] for the values and dtypes
    this file does not fix below. *)
Variable convert_other : pyobj -> dtype -> string -> result Tensor.

(** The error of a conversion to int64 of an int that does not fit. *)
Definition int64_error (z : Z) : exn :=
  ValueError [PyStr (py_format (FNotInt64 z))].

(** [ops.convert_to_tensor(value, dtype=dtypes.int64, name=name)] on an
    int. *)
Definition convert_to_tensor_int64 (value : Z) (name : string)
  : result Tensor :=
  if in_int64 value then Ok (Int64Tensor value name)
  else Raise (int64_error value).

(** [ops.convert_to_tensor(value, dtype=dtypes.string, name=name)]. *)
Definition convert_to_tensor_string (value : pyobj) (name : string)
  : result Tensor :=
  match value with
  | PyStr s => Ok (StringTensor s name)
  | _ => convert_other value DT_STRING name
  end.

(** A value given to an op as a string attribute. *)
Definition expect_str (o : pyobj) : result string :=
  match o with
  | PyStr s => Ok s
  | _ => Raise (TypeError [PyStr (py_format (FNotStr o))])
  end.

(** [string_ops.as_string] on a dataset id: the decimal digits of an
    int64; an int that does not fit is refused. *)
Definition as_string (z : Z) : result string :=
  if in_int64 z then Ok (decimal z) else Raise (int64_error z).

(** [dataset_id=/<id>/<job_name>], built by [string_join] with separator
    ["/"] (lines 952-953). *)
Definition effective_job_name (dataset_id : Z) (job_name : string)
  : result string :=
  id <- as_string dataset_id ;;
  Ok (string_join ["dataset_id="; id; job_name] "/").

(** [repr] of an item of [valid_modes] or [valid_compressions]. *)
Definition repr_const (o : pyobj) : string :=
  match o with
  | PyStr s => repr_plain s
  | _ => py_format (FValue o)
  end.

Definition ProcessingMode_validate (mode : pyobj) : result unit :=
  let valid_modes :=
    [ProcessingMode_PARALLEL_EPOCHS; ProcessingMode_DISTRIBUTED_EPOCH] in
  if negb (py_in mode valid_modes) then
    Raise (ValueError
      [PyStr (py_format (FValue mode) ++
              " is not a valid processing mode. Valid modes: " ++
              str_list (map repr_const valid_modes))])
  else Ok tt.

Definition _check_job_name (job_name : JobName) : result unit :=
  match job_name with
  | JobNameObj PyNone => Ok tt
  | JobNameObj (PyStr s) =>
      if negb (str_truth s) then
        Raise (ValueError [PyStr "job_name must not be empty"])
      else Ok tt
  | JobNameObj o =>
      Raise (ValueError
        [PyStr ("job_name must be a string, but job_name was of type " ++
                py_format (FTypeOf o) ++ ". job_name=" ++
                py_format (FValue o))])
  | JobNameTensor v =>
      Raise (ValueError
        [PyStr ("job_name must be a string, but job_name was of type " ++
                py_format FTypeOfTensor ++ ". job_name=" ++
                py_format (FTensor v))])
  end.

(** Line 139, [consumer_index is None != num_consumers is None].  Python
    chains comparison operators: the test is
    [consumer_index is None and None != num_consumers and num_consumers is None]. *)
Definition consumer_pair_test (consumer_index num_consumers : option Z) : bool :=
  option_is_None consumer_index &&
  option_ne None num_consumers &&
  option_is_None num_consumers.

(** Lines 139-143. *)
Definition check_consumer_pair (consumer_index num_consumers : option Z)
  : result unit :=
  if consumer_pair_test consumer_index num_consumers then
    Raise (ValueError
      [PyStr "Must either set both consumer_index and num_consumers, or neither. ";
       PyStr "consumer_index: "; py_of_option consumer_index;
       PyStr ", num_consumers: "; py_of_option num_consumers])
  else Ok tt.

(** Lines 144-145. *)
Definition check_job_name_set (num_consumers : option Z)
  (job_name : option job_name_t) : result unit :=
  if negb (option_is_None num_consumers) && option_is_None job_name then
    Raise (ValueError [PyStr "job_name must be set when setting num_consumers"])
  else Ok tt.

Definition job_name_tensor (j : job_name_t) : Tensor :=
  match j with
  | JobStr s => StringTensor s "job_name"
  | JobTensor v => StringTensor v "job_name"
  end.

Definition _DataServiceDatasetV2__init__
  (dataset_id : Z) (processing_mode : string) (address : pyobj)
  (element_spec : ElementSpec) (protocol : pyobj)
  (data_transfer_protocol : option string)
  (job_name : option job_name_t)
  (consumer_index num_consumers : option Z)
  (max_outstanding_requests : option Z)
  (max_request_pipelining_per_worker : Z)
  (task_refresh_interval_hint_ms : option Z)
  (target_workers : string) : result Dataset :=
  (* the local assigned at line 190 is unbound until then *)
  let variant_tensor : option data_service_dataset_v2 := None in
  check_consumer_pair consumer_index num_consumers ;;
  check_job_name_set num_consumers job_name ;;
  let job_name :=
    match job_name with None => JobStr "" | Some j => j end in
  let max_outstanding_requests :=
    match max_outstanding_requests with
    | None => int64_value AUTOTUNE
    | Some n => n
    end in
  let task_refresh_interval_hint_ms :=
    match task_refresh_interval_hint_ms with
    | None => int64_value AUTOTUNE
    | Some n => n
    end in
  (* lines 154-179 *)
  self_dataset_id <- convert_to_tensor_int64 dataset_id "dataset_id" ;;
  let self_processing_mode := StringTensor processing_mode "processing_mode" in
  self_address <- convert_to_tensor_string address "address" ;;
  self_protocol <- convert_to_tensor_string protocol "protocol" ;;
  let self_job_name := job_name_tensor job_name in
  self_consumer_index <-
    convert_to_tensor_int64
      (match consumer_index with None => -1 | Some i => i end)
      "consumer_index" ;;
  self_num_consumers <-
    convert_to_tensor_int64
      (match num_consumers with None => -1 | Some n => n end)
      "num_consumers" ;;
  self_max_outstanding_requests <-
    convert_to_tensor_int64 max_outstanding_requests
      "max_outstanding_requests" ;;
  self_max_request_pipelining_per_worker <-
    convert_to_tensor_int64 max_request_pipelining_per_worker
      "max_request_pipelining_per_task" ;;
  let self :=
    {| _dataset_id := self_dataset_id;
       _processing_mode := self_processing_mode;
       _address := self_address;
       _protocol := self_protocol;
       _job_name := self_job_name;
       _consumer_index := self_consumer_index;
       _num_consumers := self_num_consumers;
       _max_outstanding_requests := self_max_outstanding_requests;
       _max_request_pipelining_per_worker :=
         self_max_request_pipelining_per_worker;
       _element_spec := element_spec;
       _target_workers := target_workers |} in
  let compat_kwargs : list (string * string) := [] in
  let compat_kwargs :=
    match data_transfer_protocol with
    | Some p => (compat_kwargs ++ [("data_transfer_protocol", p)])%list
    | None => compat_kwargs
    end in
  let compat_kwargs :=
    if forward_compatible 2021 7 12 || negb (String.eqb target_workers "AUTO")
    then (compat_kwargs ++ [("target_workers", target_workers)])%list
    else compat_kwargs in
  (* line 189: super().__init__(variant_tensor) *)
  v <- load_local "variant_tensor" variant_tensor ;;
  let dataset := DataServiceDataset self v in
  (* lines 190-203 *)
  let variant_tensor :=
    Some {| op_self := self;
            op_task_refresh_interval_hint_ms := task_refresh_interval_hint_ms;
            op_iteration_counter := dummy_iteration_counter;
            op_compat_kwargs := compat_kwargs;
            op_flat_structure := element_spec |} in
  Ok dataset.

(** [_DataServiceDatasetV1.__init__] declares its last parameter as
    [target_worker]; its caller passes the keyword [target_workers], and its
    body reads the name [target_workers]. *)
Definition _DataServiceDatasetV1__init__
  (dataset_id : Z) (processing_mode : string) (address : pyobj)
  (element_spec : ElementSpec) (protocol : pyobj)
  (data_transfer_protocol : option string)
  (job_name : option job_name_t)
  (consumer_index num_consumers : option Z)
  (max_outstanding_requests : option Z)
  (max_request_pipelining_per_worker : Z)
  (task_refresh_interval_hint_ms : option Z)
  (target_worker : string) : result Dataset :=
  bind_keywords V1_parameters reader_keywords ;;
  target_workers <- load_name "target_workers" (@None string) ;;
  wrapped <- _DataServiceDatasetV2__init__ dataset_id processing_mode address
    element_spec protocol data_transfer_protocol job_name consumer_index
    num_consumers max_outstanding_requests max_request_pipelining_per_worker
    task_refresh_interval_hint_ms target_workers ;;
  Ok wrapped.

(** Lines 237-240. *)
Definition _DataServiceDataset :=
  if tf2_enabled then _DataServiceDatasetV2__init__
  else _DataServiceDatasetV1__init__.

Definition _parse_service (service : pyobj) : result (string * string) :=
  match service with
  | PyStr s =>
      if negb (str_truth s) then
        Raise (ValueError [PyStr "service must not be empty"])
      else
        parts <- py_split s "://" ;;
        match parts with
        | [protocol; address] => Ok (protocol, address)
        | [address] => Ok (TF_DATA_DefaultProtocol, address)
        | _ =>
            Raise (ValueError
              [PyStr ("malformed service string has multiple '://': " ++ s)])
        end
  | _ =>
      Raise (ValueError
        [PyStr ("service must be a string, but service was of type " ++
                py_format (FTypeOf service) ++ ". service=" ++
                py_format (FValue service))])
  end.

(** Lines 342-346, 636-640 and 794-798. *)
Definition check_compression (compression : pyobj) : result unit :=
  let valid_compressions := [COMPRESSION_AUTO; COMPRESSION_NONE] in
  if negb (py_in compression valid_compressions) then
    Raise (ValueError
      [PyStr ("Invalid compression argument: " ++
              py_format (FValue compression) ++ ". Must be one of " ++
              str_list (map repr_const valid_compressions))])
  else Ok tt.

(** Lines 641-644 and 808-811. *)
Definition service_endpoint (service : pyobj) : result (pyobj * pyobj) :=
  match service with
  | PyTuple items => unpack_service items
  | _ =>
      parsed <- _parse_service service ;;
      let '(protocol, address) := parsed in
      Ok (PyStr protocol, PyStr address)
  end.

(** The op [gen_experimental_dataset_ops.register_dataset]: one call to the
    dispatcher, which answers with the dataset id or with an error. *)
Definition register_dataset_rpc (r : Registration) : rpc int64 :=
  fun log => (register_dataset_op r, (log ++ [r])%list).

(** Lines 657-659, [dataset.map(lambda x: x, ...)]: the function takes one
    argument. *)
Definition map_identity (dataset : Dataset) : result Dataset :=
  if single_argument (Dataset_element_spec dataset) then
    Ok (MapDataset dataset identity AUTOTUNE)
  else
    Raise (TypeError
      [PyStr (py_format
                (FArity (argument_count (Dataset_element_spec dataset))))]).

Definition _register_dataset (service : pyobj) (dataset : Dataset)
  (compression : pyobj) : rpc int64 :=
  (lift (check_compression compression) ;;
   endpoint <- lift (service_endpoint service) ;;
   let '(protocol, address) := endpoint in
   let external_state_policy :=
     match experimental_external_state_policy (Dataset_options dataset) with
     | None => WARN
     | Some p => p
     end in
   dataset <-
     lift (if py_eqb compression COMPRESSION_AUTO
           then Ok (MapDataset dataset compress AUTOTUNE)
           else map_identity dataset) ;;
   let dataset := PrefetchDataset dataset AUTOTUNE in
   let dataset := DebugOptionsDataset dataset in
   (* the op takes address and protocol as string attributes *)
   address <- lift (expect_str address) ;;
   protocol <- lift (expect_str protocol) ;;
   register_dataset_rpc
     {| reg_dataset := dataset;
        reg_address := address;
        reg_protocol := protocol;
        reg_external_state_policy := external_state_policy |})%rpc.

Definition register_dataset (service : pyobj) (dataset : Dataset)
  : rpc int64 :=
  _register_dataset service dataset (PyStr "AUTO").

(** Lines 799-804. *)
Definition check_job_name_type (job_name : JobName)
  : result (option job_name_t) :=
  match job_name with
  | JobNameObj PyNone => Ok None
  | JobNameObj (PyStr s) => Ok (Some (JobStr s))
  | JobNameTensor v => Ok (Some (JobTensor v))
  | JobNameObj o =>
      Raise (ValueError
        [PyStr ("job_name must be a string or Tensor, but job_name was of type " ++
                py_format (FTypeOf o) ++ ". job_name=" ++
                py_format (FValue o))])
  end.

(** The processing mode as the str the validation of line 793 has found it
    to be. *)
Definition str_of_mode (processing_mode : pyobj) : result string :=
  match processing_mode with
  | PyStr s => Ok s
  | _ => Raise (TypeError [PyStr (py_format (FNotStr processing_mode))])
  end.

(** Lines 832-842: what [_from_dataset_id] does to the reader it built. *)
Definition _from_dataset_id_wrap (compression : pyobj)
  (element_spec : ElementSpec) (job_name : option job_name_t)
  (dataset : Dataset) : Dataset :=
  let dataset :=
    if py_eqb compression COMPRESSION_AUTO
    then MapDataset dataset (uncompress element_spec) AUTOTUNE
    else dataset in
  if negb (option_is_None job_name) then
    let options := Options_new in
    let options := set_auto_shard_policy options AutoShard_OFF in
    OptionsDataset dataset options
  else dataset.

Definition _from_dataset_id
  (processing_mode : pyobj) (service : pyobj) (dataset_id : Z)
  (element_spec : option ElementSpec)
  (job_name : JobName)
  (consumer_index num_consumers : option Z)
  (max_outstanding_requests : option Z)
  (max_request_pipelining_per_worker : Z)
  (task_refresh_interval_hint_ms : option Z)
  (data_transfer_protocol : option string)
  (compression : pyobj)
  (target_workers : string) : result Dataset :=
  ProcessingMode_validate processing_mode ;;
  check_compression compression ;;
  job_name <- check_job_name_type job_name ;;
  element_spec <-
    match element_spec with
    | None => Raise (ValueError [PyStr "element_spec must not be None"])
    | Some e => Ok e
    end ;;
  endpoint <- service_endpoint service ;;
  let '(protocol, address) := endpoint in
  let data_service_element_spec :=
    if py_eqb compression COMPRESSION_AUTO
    then TensorSpec [] DT_VARIANT
    else element_spec in
  mode <- str_of_mode processing_mode ;;
  dataset <- _DataServiceDataset dataset_id mode address
    data_service_element_spec protocol data_transfer_protocol job_name
    consumer_index num_consumers max_outstanding_requests
    max_request_pipelining_per_worker task_refresh_interval_hint_ms
    target_workers ;;
  Ok (_from_dataset_id_wrap compression element_spec job_name dataset).

(** Lines 342-348 of [_distribute]: the compression both halves will use. *)
Definition _distribute_compression (compression : pyobj)
  (data_transfer_protocol : option string) : result pyobj :=
  check_compression compression ;;
  Ok (if py_eqb compression COMPRESSION_AUTO &&
         negb (option_is_None data_transfer_protocol)
      then COMPRESSION_NONE
      else compression).

(** Lines 349-364: the closure [_distribute] returns, over the values it
    captures. *)
Definition _apply_fn
  (processing_mode : pyobj) (service : pyobj) (job_name : JobName)
  (consumer_index num_consumers : option Z)
  (max_outstanding_requests : option Z)
  (max_request_pipelining_per_worker : Z)
  (task_refresh_interval_hint_ms : option Z)
  (data_transfer_protocol : option string)
  (compression : pyobj) (target_workers : string)
  (dataset : Dataset) : rpc Dataset :=
  (dataset_id <- _register_dataset service dataset compression ;;
   lift (_from_dataset_id processing_mode service (int64_value dataset_id)
           (Some (Dataset_element_spec dataset)) job_name consumer_index
           num_consumers max_outstanding_requests
           max_request_pipelining_per_worker task_refresh_interval_hint_ms
           data_transfer_protocol compression target_workers))%rpc.

Definition _distribute
  (processing_mode : pyobj) (service : pyobj) (job_name : JobName)
  (consumer_index num_consumers : option Z)
  (max_outstanding_requests : option Z)
  (max_request_pipelining_per_worker : Z)
  (task_refresh_interval_hint_ms : option Z)
  (data_transfer_protocol : option string)
  (compression : pyobj) (target_workers : string)
  : result (Dataset -> rpc Dataset) :=
  ProcessingMode_validate processing_mode ;;
  compression <- _distribute_compression compression data_transfer_protocol ;;
  Ok (_apply_fn processing_mode service job_name consumer_index num_consumers
        max_outstanding_requests max_request_pipelining_per_worker
        task_refresh_interval_hint_ms data_transfer_protocol compression
        target_workers).

Definition distribute
  (processing_mode : pyobj) (service : pyobj) (job_name : JobName)
  (consumer_index num_consumers : option Z)
  (max_outstanding_requests : option Z)
  (max_request_pipelining_per_worker : Z)
  (data_transfer_protocol : option string)
  (compression : pyobj) (target_workers : string)
  : result (Dataset -> rpc Dataset) :=
  _check_job_name job_name ;;
  _distribute processing_mode service job_name consumer_index num_consumers
    max_outstanding_requests max_request_pipelining_per_worker None
    data_transfer_protocol compression target_workers.

(** Lines 951-953 of [from_dataset_id], reached once [_check_job_name] has
    passed. *)
Definition from_dataset_id_job_name (dataset_id : Z) (job_name : JobName)
  : result JobName :=
  match job_name with
  | JobNameObj PyNone => Ok job_name
  | JobNameObj (PyStr s) =>
      name <- effective_job_name dataset_id s ;;
      Ok (JobNameTensor name)
  | JobNameTensor v =>
      name <- effective_job_name dataset_id v ;;
      Ok (JobNameTensor name)
  | JobNameObj o => Raise (TypeError [PyStr (py_format (FNotStr o))])
  end.

Definition from_dataset_id
  (processing_mode : pyobj) (service : pyobj) (dataset_id : Z)
  (element_spec : option ElementSpec)
  (job_name : JobName)
  (consumer_index num_consumers : option Z)
  (max_outstanding_requests : option Z)
  (max_request_pipelining_per_worker : Z)
  (data_transfer_protocol : option string)
  (target_workers : string) : result Dataset :=
  _check_job_name job_name ;;
  job_name <- from_dataset_id_job_name dataset_id job_name ;;
  _from_dataset_id processing_mode service dataset_id element_spec job_name
    consumer_index num_consumers max_outstanding_requests
    max_request_pipelining_per_worker None data_transfer_protocol
    (PyStr "AUTO") target_workers.

(** What [_DataServiceDataset] raises once the arguments pass the checks of
    the constructor. *)
Definition reader_failure : exn :=
  if tf2_enabled then UnboundLocalError "variant_tensor"
  else TypeError
         [PyStr "__init__() got an unexpected keyword argument 'target_workers'"].

(** ** Properties of [str.split] *)

Lemma split_nonempty_eq (c : ascii) (sep' s : string) :
  split_nonempty c sep' s =
  match find_sep (String c sep') s with
  | None => [s]
  | Some (before, after) => before :: split_nonempty c sep' after
  end.
Proof.
  funelim (split_nonempty c sep' s);
    match goal with E : find_sep _ _ = _ |- _ => now rewrite E end.
Qed.

Lemma find_sep_None_count (sep s : string) :
  find_sep sep s = None -> count_occ sep s = 0.
Proof.
  induction s as [|c s IH]; cbn [find_sep count_occ]; intros H.
  - now destruct (strip_prefix sep "").
  - destruct (strip_prefix sep (String c s)); [discriminate|].
    destruct (find_sep sep s) as [[b a]|]; [discriminate|].
    now rewrite IH.
Qed.

(** Before the leftmost occurrence nothing is counted. *)
Lemma find_sep_Some_count (sep s before after : string) :
  find_sep sep s = Some (before, after) ->
  count_occ sep s = count_occ sep (sep ++ after).
Proof.
  revert before; induction s as [|c s IH]; intros before H.
  - cbn [find_sep] in H.
    destruct (strip_prefix sep "") eqn:E; [|discriminate].
    injection H as <- <-. now rewrite <- (strip_prefix_app _ _ _ E).
  - cbn [find_sep] in H. cbn [count_occ].
    destruct (strip_prefix sep (String c s)) eqn:E.
    + injection H as <- <-. rewrite <- (strip_prefix_app _ _ _ E).
      cbn [count_occ]. now rewrite E.
    + destruct (find_sep sep s) as [[b a]|] eqn:F; [|discriminate].
      injection H as <- <-. now rewrite (IH _ eq_refl).
Qed.

(** The separator of service strings does not overlap itself: after an
    occurrence, the next one starts past its end. *)
Lemma count_occ_after_sep (after : string) :
  count_occ "://" ("://" ++ after) = S (count_occ "://" after).
Proof.
  cbn [append count_occ strip_prefix Ascii.eqb Bool.eqb Nat.add].
  reflexivity.
Qed.

(** [split] returns one more piece than there are separators. *)
Lemma split_length_count (s : string) :
  List.length (split_nonempty ":" "//" s) = S (count_occ "://" s).
Proof.
  remember (String.length s) as n eqn:Hn.
  revert s Hn; induction n as [n IH] using lt_wf_ind; intros s Hn.
  rewrite split_nonempty_eq.
  destruct (find_sep "://" s) as [[b a]|] eqn:F.
  - rewrite (find_sep_Some_count _ _ _ _ F), count_occ_after_sep.
    simpl. f_equal.
    apply (IH (String.length a)); [|reflexivity].
    subst n. eapply find_sep_shorter, F.
  - now rewrite (find_sep_None_count _ _ F).
Qed.

Lemma split_no_sep (s : string) :
  count_occ "://" s = 0 -> split_nonempty ":" "//" s = [s].
Proof.
  intros H. rewrite split_nonempty_eq.
  destruct (find_sep "://" s) as [[b a]|] eqn:F; [|reflexivity].
  rewrite (find_sep_Some_count _ _ _ _ F), count_occ_after_sep in H. discriminate.
Qed.

Lemma split_one_sep (s : string) :
  count_occ "://" s = 1 ->
  exists protocol address : string,
    s = protocol ++ "://" ++ address /\
    split_nonempty ":" "//" s = [protocol; address].
Proof.
  intros H. rewrite split_nonempty_eq.
  destruct (find_sep "://" s) as [[b a]|] eqn:F.
  - exists b, a. split; [now apply find_sep_app|].
    rewrite (find_sep_Some_count _ _ _ _ F), count_occ_after_sep in H.
    injection H as H. now rewrite (split_no_sep _ H).
  - rewrite (find_sep_None_count _ _ F) in H. discriminate.
Qed.

Lemma split_many_sep (s : string) :
  1 < count_occ "://" s ->
  exists (p1 p2 p3 : string) (rest : list string),
    split_nonempty ":" "//" s = p1 :: p2 :: p3 :: rest.
Proof.
  intros H. pose proof (split_length_count s) as L.
  destruct (split_nonempty ":" "//" s) as [|p1 [|p2 [|p3 rest]]];
    simpl in L; try lia.
  now exists p1, p2, p3, rest.
Qed.

(** ** Processing modes *)

Lemma py_eqb_PyStr (o : pyobj) (s : string) :
  py_eqb o (PyStr s) = true <-> o = PyStr s.
Proof.
  destruct o as [| z | t | items]; simpl; split; try discriminate.
  - intros H. apply String.eqb_eq in H. now subst.
  - intros H. injection H as ->. apply String.eqb_refl.
Qed.

Lemma append_assoc (a b c : string) : (a ++ b) ++ c = a ++ b ++ c.
Proof. induction a; simpl; congruence. Qed.

(** C7. [ProcessingMode.validate] returns for the strings "parallel_epochs"
    and "distributed_epoch" and for nothing else; for every other value it
    raises a ValueError whose message names both valid modes. *)
Theorem ProcessingMode_validate_spec (mode : pyobj) :
  (ProcessingMode_validate mode = Ok tt <->
   mode = PyStr "parallel_epochs" \/ mode = PyStr "distributed_epoch") /\
  (mode <> PyStr "parallel_epochs" ->
   mode <> PyStr "distributed_epoch" ->
   exists msg : string,
     ProcessingMode_validate mode = Raise (ValueError [PyStr msg]) /\
     contains "parallel_epochs" msg /\
     contains "distributed_epoch" msg).
Proof.
  unfold ProcessingMode_validate, py_in,
    ProcessingMode_PARALLEL_EPOCHS, ProcessingMode_DISTRIBUTED_EPOCH.
  cbn [existsb map].
  destruct (py_eqb mode (PyStr "parallel_epochs")) eqn:E1.
  { apply py_eqb_PyStr in E1. subst mode. simpl. split.
    - split; [now left | reflexivity].
    - intros H. now destruct H. }
  destruct (py_eqb mode (PyStr "distributed_epoch")) eqn:E2.
  { apply py_eqb_PyStr in E2. subst mode. simpl. split.
    - split; [now right | reflexivity].
    - intros _ H. now destruct H. }
  cbn [orb negb]. split.
  - split; [discriminate|].
    intros [H | H]; apply py_eqb_PyStr in H; congruence.
  - intros _ _. eexists. split; [reflexivity|]. split.
    + exists (py_format (FValue mode) ++
              " is not a valid processing mode. Valid modes: ['"),
             "', 'distributed_epoch']".
      now rewrite append_assoc.
    + exists (py_format (FValue mode) ++
              " is not a valid processing mode. Valid modes: ['parallel_epochs', '"),
             "']".
      now rewrite append_assoc.
Qed.

(** ** Compression negotiation *)

(** C5. In [_distribute], "AUTO" with a data transfer protocol resolves to
    None, "AUTO" without one stays "AUTO", and None stays None whatever the
    data transfer protocol is. *)
Theorem _distribute_compression_spec :
  (forall p : string,
     _distribute_compression (PyStr "AUTO") (Some p) = Ok PyNone) /\
  _distribute_compression (PyStr "AUTO") None = Ok (PyStr "AUTO") /\
  (forall data_transfer_protocol : option string,
     _distribute_compression PyNone data_transfer_protocol = Ok PyNone).
Proof.
  repeat split; reflexivity.
Qed.

(** ** Validation in the reader's constructor *)

(** The test of line 139 is false for every pair. *)
Lemma consumer_pair_test_false (consumer_index num_consumers : option Z) :
  consumer_pair_test consumer_index num_consumers = false.
Proof.
  unfold consumer_pair_test.
  destruct consumer_index, num_consumers; reflexivity.
Qed.

Lemma check_consumer_pair_passes (consumer_index num_consumers : option Z) :
  check_consumer_pair consumer_index num_consumers = Ok tt.
Proof.
  unfold check_consumer_pair. now rewrite consumer_pair_test_false.
Qed.

Lemma in_int64_minus_one : in_int64 (-1) = true.
Proof. reflexivity. Qed.

Lemma in_int64_AUTOTUNE : in_int64 (int64_value AUTOTUNE) = true.
Proof. apply int64_in_range. Qed.

(** The constructor on a str address and a str protocol: the check of lines
    144-145, then the conversions of lines 154-179 in their order, then
    line 189. *)
Lemma _DataServiceDatasetV2__init___run
  (dataset_id : Z) (processing_mode address : string)
  (element_spec : ElementSpec) (protocol : string)
  (data_transfer_protocol : option string)
  (job_name : option job_name_t)
  (consumer_index num_consumers : option Z)
  (max_outstanding_requests : option Z)
  (max_request_pipelining_per_worker : Z)
  (task_refresh_interval_hint_ms : option Z) (target_workers : string) :
  _DataServiceDatasetV2__init__ dataset_id processing_mode (PyStr address)
    element_spec (PyStr protocol) data_transfer_protocol job_name
    consumer_index num_consumers max_outstanding_requests
    max_request_pipelining_per_worker task_refresh_interval_hint_ms
    target_workers =
  if negb (option_is_None num_consumers) && option_is_None job_name then
    Raise (ValueError [PyStr "job_name must be set when setting num_consumers"])
  else
    match first_not_int64
            [Some dataset_id; consumer_index; num_consumers;
             max_outstanding_requests;
             Some max_request_pipelining_per_worker] with
    | Some z => Raise (int64_error z)
    | None => Raise (UnboundLocalError "variant_tensor")
    end.
Proof.
  unfold _DataServiceDatasetV2__init__.
  rewrite check_consumer_pair_passes. cbn [bind].
  unfold check_job_name_set.
  destruct (negb (option_is_None num_consumers) && option_is_None job_name);
    [reflexivity|].
  cbn [bind convert_to_tensor_string first_not_int64].
  unfold convert_to_tensor_int64.
  destruct consumer_index, num_consumers, max_outstanding_requests;
    rewrite ?in_int64_minus_one, ?in_int64_AUTOTUNE;
    repeat match goal with
           | |- context [in_int64 ?z] => destruct (in_int64 z)
           end;
    reflexivity.
Qed.

(** C1. With [consumer_index=0] and [num_consumers=None] the check of lines
    139-143 passes, and the constructor raises no ValueError. *)
Theorem check_consumer_pair_misses_mismatch :
  check_consumer_pair (Some 0%Z) None = Ok tt /\
  _DataServiceDatasetV2__init__ 1 "parallel_epochs" (PyStr "host:5000")
    (TensorSpec [] DT_INT64) (PyStr "grpc") None None (Some 0%Z) None None 1
    None "AUTO" = Raise (UnboundLocalError "variant_tensor").
Proof.
  split; [reflexivity|].
  now rewrite _DataServiceDatasetV2__init___run.
Qed.

(** C8. With [num_consumers] set and [job_name=None] the constructor raises
    the ValueError that asks for [job_name]; with both set the check of
    lines 144-145 passes. *)
Theorem num_consumers_requires_job_name
  (dataset_id : Z) (processing_mode : string) (address : pyobj)
  (element_spec : ElementSpec) (protocol : pyobj)
  (data_transfer_protocol : option string)
  (consumer_index : option Z) (n : Z)
  (max_outstanding_requests : option Z)
  (max_request_pipelining_per_worker : Z)
  (task_refresh_interval_hint_ms : option Z) (target_workers : string) :
  _DataServiceDatasetV2__init__ dataset_id processing_mode address
    element_spec protocol data_transfer_protocol None consumer_index (Some n)
    max_outstanding_requests max_request_pipelining_per_worker
    task_refresh_interval_hint_ms target_workers =
  Raise (ValueError [PyStr "job_name must be set when setting num_consumers"]) /\
  (forall j : job_name_t, check_job_name_set (Some n) (Some j) = Ok tt).
Proof.
  split; [|reflexivity].
  unfold _DataServiceDatasetV2__init__.
  now rewrite check_consumer_pair_passes.
Qed.

(** No arguments make the constructor return. *)
Lemma _DataServiceDatasetV2__init___never_returns
  (dataset_id : Z) (processing_mode : string) (address : pyobj)
  (element_spec : ElementSpec) (protocol : pyobj)
  (data_transfer_protocol : option string)
  (job_name : option job_name_t)
  (consumer_index num_consumers : option Z)
  (max_outstanding_requests : option Z)
  (max_request_pipelining_per_worker : Z)
  (task_refresh_interval_hint_ms : option Z) (target_workers : string) :
  is_Ok (_DataServiceDatasetV2__init__ dataset_id processing_mode address
    element_spec protocol data_transfer_protocol job_name consumer_index
    num_consumers max_outstanding_requests max_request_pipelining_per_worker
    task_refresh_interval_hint_ms target_workers) = false.
Proof.
  unfold _DataServiceDatasetV2__init__.
  rewrite check_consumer_pair_passes. cbn [bind].
  repeat match goal with
         | |- is_Ok (bind (load_local _ None) _) = false => reflexivity
         | |- is_Ok (bind ?c _) = false =>
             destruct c; cbn [bind is_Ok]; [|reflexivity]
         end.
Qed.

(** C3. Arguments that pass both checks of the constructor and the
    conversions of lines 154-179 (the ints fit int64, the address and the
    protocol are strs) still do not build a reader: line 189 reads
    [variant_tensor] before line 190 assigns it, and the constructor raises
    UnboundLocalError.  Whatever the address and the protocol are, the
    constructor does not return. *)
Theorem _DataServiceDatasetV2__init___unbound_local
  (dataset_id : Z) (processing_mode address : string)
  (element_spec : ElementSpec) (protocol : string)
  (data_transfer_protocol : option string)
  (job_name : option job_name_t)
  (consumer_index num_consumers : option Z)
  (max_outstanding_requests : option Z)
  (max_request_pipelining_per_worker : Z)
  (task_refresh_interval_hint_ms : option Z) (target_workers : string) :
  check_consumer_pair consumer_index num_consumers = Ok tt ->
  check_job_name_set num_consumers job_name = Ok tt ->
  in_int64 dataset_id = true ->
  opt_in_int64 consumer_index = true ->
  opt_in_int64 num_consumers = true ->
  opt_in_int64 max_outstanding_requests = true ->
  in_int64 max_request_pipelining_per_worker = true ->
  _DataServiceDatasetV2__init__ dataset_id processing_mode (PyStr address)
    element_spec (PyStr protocol) data_transfer_protocol job_name
    consumer_index num_consumers max_outstanding_requests
    max_request_pipelining_per_worker task_refresh_interval_hint_ms
    target_workers =
  Raise (UnboundLocalError "variant_tensor") /\
  (forall any_address any_protocol : pyobj,
     is_Ok (_DataServiceDatasetV2__init__ dataset_id processing_mode
       any_address element_spec any_protocol data_transfer_protocol job_name
       consumer_index num_consumers max_outstanding_requests
       max_request_pipelining_per_worker task_refresh_interval_hint_ms
       target_workers) = false).
Proof.
  intros _ Hjob Hid Hci Hnc Hmor Hmrp.
  split; [|intros; apply _DataServiceDatasetV2__init___never_returns].
  rewrite _DataServiceDatasetV2__init___run.
  unfold check_job_name_set in Hjob.
  destruct (negb (option_is_None num_consumers) && option_is_None job_name);
    [discriminate|].
  cbn [first_not_int64]. rewrite Hid, Hmrp.
  destruct consumer_index, num_consumers, max_outstanding_requests;
    cbn [opt_in_int64] in Hci, Hnc, Hmor;
    rewrite ?Hci, ?Hnc, ?Hmor; reflexivity.
Qed.

Lemma _DataServiceDataset_never_returns
  (dataset_id : Z) (processing_mode : string) (address : pyobj)
  (element_spec : ElementSpec) (protocol : pyobj)
  (data_transfer_protocol : option string)
  (job_name : option job_name_t)
  (consumer_index num_consumers : option Z)
  (max_outstanding_requests : option Z)
  (max_request_pipelining_per_worker : Z)
  (task_refresh_interval_hint_ms : option Z) (target_workers : string) :
  is_Ok (_DataServiceDataset dataset_id processing_mode address
    element_spec protocol data_transfer_protocol job_name consumer_index
    num_consumers max_outstanding_requests max_request_pipelining_per_worker
    task_refresh_interval_hint_ms target_workers) = false.
Proof.
  unfold _DataServiceDataset. destruct tf2_enabled.
  - apply _DataServiceDatasetV2__init___never_returns.
  - reflexivity.
Qed.

(** ** Service strings *)

(** Runs [_parse_service] on a non-empty string up to the pieces of the
    split. *)
Ltac parse_nonempty :=
  unfold _parse_service; cbn [str_truth negb py_split bind].

(** C2. [_parse_service] cuts a string with one "://" at it, gives a
    non-empty string without "://" the default protocol, and raises
    ValueError for a string with several "://", for the empty string and for
    a value that is not a string. *)
Theorem _parse_service_spec :
  (forall s : string,
     count_occ "://" s = 1 ->
     exists protocol address : string,
       s = protocol ++ "://" ++ address /\
       _parse_service (PyStr s) = Ok (protocol, address)) /\
  (forall s : string,
     s <> "" ->
     count_occ "://" s = 0 ->
     _parse_service (PyStr s) = Ok (TF_DATA_DefaultProtocol, s)) /\
  (forall s : string,
     1 < count_occ "://" s ->
     _parse_service (PyStr s) =
     Raise (ValueError
       [PyStr ("malformed service string has multiple '://': " ++ s)])) /\
  _parse_service (PyStr "") =
    Raise (ValueError [PyStr "service must not be empty"]) /\
  (forall o : pyobj,
     is_string o = false ->
     exists msg : string, _parse_service o = Raise (ValueError [PyStr msg])).
Proof.
  repeat apply conj.
  - intros s H. destruct s as [|c s]; [discriminate|].
    destruct (split_one_sep _ H) as (protocol & address & Hs & Hsplit).
    exists protocol, address. split; [exact Hs|].
    parse_nonempty. now rewrite Hsplit.
  - intros s Hne H. destruct s as [|c s]; [congruence|].
    parse_nonempty. now rewrite (split_no_sep _ H).
  - intros s H. destruct s as [|c s]; [simpl in H; lia|].
    destruct (split_many_sep _ H) as (p1 & p2 & p3 & rest & Hsplit).
    parse_nonempty. now rewrite Hsplit.
  - reflexivity.
  - intros o H. destruct o; try discriminate H; eexists; reflexivity.
Qed.

(** ** Job names scoped by dataset id *)

Lemma decimal_inj (a b : Z) : decimal a = decimal b -> a = b.
Proof.
  assert (nonnil : forall z : Z,
            NilZero.int_of_string (decimal z) = Some (Z.to_int z)).
  { intros z. apply NilZero.isi; destruct z; simpl; try discriminate;
      intros H; injection H; apply Unsigned.to_uint_nonnil. }
  intros H. apply DecimalZ.to_int_inj.
  pose proof (nonnil a) as Ha. rewrite H, nonnil in Ha. congruence.
Qed.

Lemma append_inv_tail (a b t : string) : a ++ t = b ++ t -> a = b.
Proof.
  revert b; induction a as [|c a IH]; intros [|d b] H; simpl in H.
  - reflexivity.
  - apply (f_equal String.length) in H. simpl in H.
    rewrite length_app in H. lia.
  - apply (f_equal String.length) in H. simpl in H.
    rewrite length_app in H. lia.
  - injection H as -> H. f_equal. now apply IH.
Qed.

(** For a dataset id that fits int64 the derived name is the text
    [dataset_id=/<id>/<job_name>]. *)
Lemma effective_job_name_eq (dataset_id : Z) (job_name : string) :
  in_int64 dataset_id = true ->
  effective_job_name dataset_id job_name =
  Ok ("dataset_id=/" ++ decimal dataset_id ++ "/" ++ job_name).
Proof.
  intros H. unfold effective_job_name, as_string. now rewrite H.
Qed.

(** A dataset id that does not fit int64 has no derived name. *)
Lemma effective_job_name_out_of_range (dataset_id : Z) (job_name : string) :
  in_int64 dataset_id = false ->
  effective_job_name dataset_id job_name = Raise (int64_error dataset_id).
Proof.
  intros H. unfold effective_job_name, as_string. now rewrite H.
Qed.

Lemma derived_text_inj (id1 id2 : Z) (job_name : string) :
  "dataset_id=/" ++ decimal id1 ++ "/" ++ job_name =
  "dataset_id=/" ++ decimal id2 ++ "/" ++ job_name ->
  id1 = id2.
Proof.
  intros H. cbn [append] in H. repeat (injection H as H).
  apply append_inv_tail in H. now apply decimal_inj.
Qed.

(** C4. For a named job and a dataset id that fits int64,
    [from_dataset_id] puts the dataset id in front of the caller's job name
    and hands the result to [_from_dataset_id] as the job name; two
    different dataset ids never give the same name. *)
Theorem from_dataset_id_job_name_spec (id1 id2 : Z) (job_name : string) :
  in_int64 id1 = true ->
  in_int64 id2 = true ->
  id1 <> id2 ->
  from_dataset_id_job_name id1 (JobNameObj (PyStr job_name)) =
    Ok (JobNameTensor ("dataset_id=/" ++ decimal id1 ++ "/" ++ job_name)) /\
  from_dataset_id_job_name id1 (JobNameObj (PyStr job_name)) <>
  from_dataset_id_job_name id2 (JobNameObj (PyStr job_name)) /\
  (job_name <> "" ->
   forall (processing_mode service : pyobj)
          (element_spec : option ElementSpec)
          (consumer_index num_consumers max_outstanding_requests : option Z)
          (max_request_pipelining_per_worker : Z)
          (data_transfer_protocol : option string) (target_workers : string),
     from_dataset_id processing_mode service id1 element_spec
       (JobNameObj (PyStr job_name)) consumer_index num_consumers
       max_outstanding_requests max_request_pipelining_per_worker
       data_transfer_protocol target_workers =
     _from_dataset_id processing_mode service id1 element_spec
       (JobNameTensor ("dataset_id=/" ++ decimal id1 ++ "/" ++ job_name))
       consumer_index num_consumers max_outstanding_requests
       max_request_pipelining_per_worker None data_transfer_protocol
       (PyStr "AUTO") target_workers).
Proof.
  intros H1 H2 Hne.
  unfold from_dataset_id, from_dataset_id_job_name.
  rewrite (effective_job_name_eq id1 job_name H1),
          (effective_job_name_eq id2 job_name H2).
  cbn [bind]. split; [reflexivity|]. split.
  - intros H. apply Hne, (derived_text_inj id1 id2 job_name). congruence.
  - intros Hname. destruct job_name as [|c s]; [congruence|]. reflexivity.
Qed.

(** ** The reader behind [_from_dataset_id] and [_distribute] *)

Lemma _from_dataset_id_never_returns
  (processing_mode service : pyobj) (dataset_id : Z)
  (element_spec : option ElementSpec) (job_name : JobName)
  (consumer_index num_consumers max_outstanding_requests : option Z)
  (max_request_pipelining_per_worker : Z)
  (task_refresh_interval_hint_ms : option Z)
  (data_transfer_protocol : option string) (compression : pyobj)
  (target_workers : string) :
  is_Ok (_from_dataset_id processing_mode service dataset_id element_spec
    job_name consumer_index num_consumers max_outstanding_requests
    max_request_pipelining_per_worker task_refresh_interval_hint_ms
    data_transfer_protocol compression target_workers) = false.
Proof.
  unfold _from_dataset_id.
  destruct (ProcessingMode_validate processing_mode) as [[]|]; [|reflexivity].
  destruct (check_compression compression) as [[]|]; [|reflexivity].
  destruct (check_job_name_type job_name) as [j|]; [|reflexivity].
  destruct element_spec as [spec|]; [|reflexivity].
  destruct (service_endpoint service) as [[protocol address]|]; [|reflexivity].
  destruct (str_of_mode processing_mode) as [mode|]; [|reflexivity].
  cbn [bind].
  match goal with
  | |- is_Ok (bind ?c _) = false =>
      pose proof (_DataServiceDataset_never_returns dataset_id mode address
        (if py_eqb compression COMPRESSION_AUTO
         then TensorSpec [] DT_VARIANT else spec)
        protocol data_transfer_protocol j consumer_index num_consumers
        max_outstanding_requests max_request_pipelining_per_worker
        task_refresh_interval_hint_ms target_workers) as H;
      destruct c; [discriminate H | reflexivity]
  end.
Qed.

(** Applying the closure of [_distribute] never returns a dataset. *)
Lemma _apply_fn_never_returns
  (processing_mode service : pyobj) (job_name : JobName)
  (consumer_index num_consumers max_outstanding_requests : option Z)
  (max_request_pipelining_per_worker : Z)
  (task_refresh_interval_hint_ms : option Z)
  (data_transfer_protocol : option string) (compression : pyobj)
  (target_workers : string) (dataset : Dataset) (log : list Registration) :
  is_Ok (fst (_apply_fn processing_mode service job_name consumer_index
    num_consumers max_outstanding_requests max_request_pipelining_per_worker
    task_refresh_interval_hint_ms data_transfer_protocol compression
    target_workers dataset log)) = false.
Proof.
  unfold _apply_fn, rpc_bind.
  destruct (_register_dataset service dataset compression log)
    as [[dataset_id|e] log']; [|reflexivity].
  unfold lift. cbn [fst]. apply _from_dataset_id_never_returns.
Qed.

(** [_distribute] hands the one resolved compression to the closure, which
    passes it to [_register_dataset] and to [_from_dataset_id]. *)
Lemma _distribute_threads_compression
  (processing_mode service : pyobj) (job_name : JobName)
  (consumer_index num_consumers max_outstanding_requests : option Z)
  (max_request_pipelining_per_worker : Z)
  (task_refresh_interval_hint_ms : option Z)
  (data_transfer_protocol : option string) (compression resolved : pyobj)
  (target_workers : string) :
  ProcessingMode_validate processing_mode = Ok tt ->
  _distribute_compression compression data_transfer_protocol = Ok resolved ->
  _distribute processing_mode service job_name consumer_index num_consumers
    max_outstanding_requests max_request_pipelining_per_worker
    task_refresh_interval_hint_ms data_transfer_protocol compression
    target_workers =
  Ok (_apply_fn processing_mode service job_name consumer_index num_consumers
        max_outstanding_requests max_request_pipelining_per_worker
        task_refresh_interval_hint_ms data_transfer_protocol resolved
        target_workers).
Proof.
  intros H1 H2. unfold _distribute. now rewrite H1, H2.
Qed.

(** What [_register_dataset] does for a valid compression, a service that
    resolves to two strs and, where the identity is mapped, elements that
    are one argument: one call, whose answer it returns. *)
Lemma _register_dataset_run (service : pyobj) (dataset : Dataset)
  (compression : pyobj) (log : list Registration)
  (protocol address : string) :
  check_compression compression = Ok tt ->
  service_endpoint service = Ok (PyStr protocol, PyStr address) ->
  (py_eqb compression COMPRESSION_AUTO = false ->
   single_argument (Dataset_element_spec dataset) = true) ->
  let r :=
    {| reg_dataset :=
         DebugOptionsDataset
           (PrefetchDataset
              (MapDataset dataset
                 (if py_eqb compression COMPRESSION_AUTO
                  then compress else identity) AUTOTUNE) AUTOTUNE);
       reg_address := address;
       reg_protocol := protocol;
       reg_external_state_policy :=
         match experimental_external_state_policy (Dataset_options dataset) with
         | None => WARN
         | Some p => p
         end |} in
  _register_dataset service dataset compression log =
  (register_dataset_op r, (log ++ [r])%list).
Proof.
  intros Hc Hs Hm. unfold _register_dataset, rpc_bind, lift, register_dataset_rpc.
  rewrite Hc, Hs. unfold map_identity.
  destruct (py_eqb compression COMPRESSION_AUTO); [reflexivity|].
  now rewrite (Hm eq_refl).
Qed.

(** What [_from_dataset_id] raises for a valid processing mode and
    compression, a job name of an accepted type, an element spec and a
    service that resolves to two strs. *)
Lemma _from_dataset_id_run
  (processing_mode service : pyobj) (mode : string) (dataset_id : Z)
  (element_spec : ElementSpec) (job_name : JobName)
  (checked : option job_name_t)
  (consumer_index num_consumers max_outstanding_requests : option Z)
  (max_request_pipelining_per_worker : Z)
  (task_refresh_interval_hint_ms : option Z)
  (data_transfer_protocol : option string) (compression : pyobj)
  (target_workers : string) (protocol address : string) :
  ProcessingMode_validate processing_mode = Ok tt ->
  str_of_mode processing_mode = Ok mode ->
  check_compression compression = Ok tt ->
  check_job_name_type job_name = Ok checked ->
  service_endpoint service = Ok (PyStr protocol, PyStr address) ->
  _from_dataset_id processing_mode service dataset_id (Some element_spec)
    job_name consumer_index num_consumers max_outstanding_requests
    max_request_pipelining_per_worker task_refresh_interval_hint_ms
    data_transfer_protocol compression target_workers =
  Raise
    (if tf2_enabled then
       if negb (option_is_None num_consumers) && option_is_None checked then
         ValueError [PyStr "job_name must be set when setting num_consumers"]
       else
         match first_not_int64
                 [Some dataset_id; consumer_index; num_consumers;
                  max_outstanding_requests;
                  Some max_request_pipelining_per_worker] with
         | Some z => int64_error z
         | None => UnboundLocalError "variant_tensor"
         end
     else
       TypeError
         [PyStr "__init__() got an unexpected keyword argument 'target_workers'"]).
Proof.
  intros Hm Hmode Hc Hj Hs. unfold _from_dataset_id.
  rewrite Hm, Hc, Hj, Hs, Hmode. cbn [bind].
  unfold _DataServiceDataset. destruct tf2_enabled; [|reflexivity].
  rewrite _DataServiceDatasetV2__init___run.
  destruct (negb (option_is_None num_consumers) && option_is_None checked);
    [reflexivity|].
  now destruct (first_not_int64 _).
Qed.

(** A registration that succeeds has sent the pipeline with one more map on
    top: [compress] for "AUTO", the identity otherwise. *)
Lemma _register_dataset_steps (service : pyobj) (dataset : Dataset)
  (compression : pyobj) (log log' : list Registration) (dataset_id : int64) :
  _register_dataset service dataset compression log = (Ok dataset_id, log') ->
  exists r : Registration,
    log' = (log ++ [r])%list /\
    register_dataset_op r = Ok dataset_id /\
    map_steps (reg_dataset r) =
      (if py_eqb compression COMPRESSION_AUTO then compress else identity)
      :: map_steps dataset.
Proof.
  unfold _register_dataset, rpc_bind, lift, register_dataset_rpc, map_identity.
  destruct (check_compression compression) as [[]|]; [|discriminate].
  destruct (service_endpoint service) as [[protocol address]|]; [|discriminate].
  destruct (py_eqb compression COMPRESSION_AUTO).
  - destruct (expect_str address); [|discriminate].
    destruct (expect_str protocol); [|discriminate].
    intros H. injection H as H <-. eexists. now repeat split.
  - destruct (single_argument (Dataset_element_spec dataset)); [|discriminate].
    destruct (expect_str address); [|discriminate].
    destruct (expect_str protocol); [|discriminate].
    intros H. injection H as H <-. eexists. now repeat split.
Qed.

(** Lines 832-842 add [uncompress] exactly for "AUTO", and switch
    auto-sharding off exactly for a job name that is not None. *)
Lemma _from_dataset_id_wrap_steps (compression : pyobj)
  (element_spec : ElementSpec) (job_name : option job_name_t)
  (dataset : Dataset) :
  map_steps (_from_dataset_id_wrap compression element_spec job_name dataset) =
  if py_eqb compression COMPRESSION_AUTO
  then uncompress element_spec :: map_steps dataset
  else map_steps dataset.
Proof.
  unfold _from_dataset_id_wrap.
  destruct job_name, (py_eqb compression COMPRESSION_AUTO); reflexivity.
Qed.

Lemma _from_dataset_id_wrap_options (compression : pyobj)
  (element_spec : ElementSpec) (job_name : option job_name_t)
  (dataset : Dataset) :
  Dataset_options
    (_from_dataset_id_wrap compression element_spec job_name dataset) =
  match job_name with
  | Some _ =>
      Options_merge (Dataset_options dataset)
        (set_auto_shard_policy Options_new AutoShard_OFF)
  | None => Dataset_options dataset
  end.
Proof.
  unfold _from_dataset_id_wrap.
  destruct job_name, (py_eqb compression COMPRESSION_AUTO); reflexivity.
Qed.

(** C6. [_distribute] with compression "AUTO" and no data transfer
    protocol, applied to a dataset: the registration sends the pipeline with
    the [compress] map on top, and whether the dispatcher answers with an id
    or with an error, the transformation raises before any [uncompress] map
    is added: with the reader's failure after an id, with the dispatcher's
    error otherwise. *)
Theorem _distribute_auto_compresses_without_uncompress :
  let r :=
    {| reg_dataset :=
         DebugOptionsDataset
           (PrefetchDataset (MapDataset range_dataset compress AUTOTUNE)
              AUTOTUNE);
       reg_address := "host:5000";
       reg_protocol := "grpc";
       reg_external_state_policy := WARN |} in
  exists apply_fn : Dataset -> rpc Dataset,
    _distribute (PyStr "parallel_epochs") (PyStr "grpc://host:5000")
      (JobNameObj PyNone) None None None 1 None None (PyStr "AUTO") "AUTO" =
    Ok apply_fn /\
    apply_fn range_dataset [] =
    (Raise (match register_dataset_op r with
            | Ok _ => reader_failure
            | Raise e => e
            end),
     [r]).
Proof.
  intros r.
  exists (_apply_fn (PyStr "parallel_epochs") (PyStr "grpc://host:5000")
            (JobNameObj PyNone) None None None 1 None None (PyStr "AUTO")
            "AUTO").
  split; [reflexivity|].
  unfold _apply_fn, rpc_bind.
  assert (Hr : _register_dataset (PyStr "grpc://host:5000") range_dataset
                 (PyStr "AUTO") [] = (register_dataset_op r, [r])).
  { apply (_register_dataset_run (PyStr "grpc://host:5000") range_dataset
             (PyStr "AUTO") [] "grpc" "host:5000" eq_refl eq_refl
             (fun _ => eq_refl)). }
  rewrite Hr. destruct (register_dataset_op r) as [id|e]; [|reflexivity].
  unfold lift.
  change (Dataset_element_spec range_dataset) with (TensorSpec [] DT_INT64).
  rewrite (_from_dataset_id_run (PyStr "parallel_epochs")
             (PyStr "grpc://host:5000") "parallel_epochs" (int64_value id)
             (TensorSpec [] DT_INT64) (JobNameObj PyNone) None None None None
             1 None None (PyStr "AUTO") "AUTO" "grpc" "host:5000"
             eq_refl eq_refl eq_refl eq_refl eq_refl).
  cbn [first_not_int64 option_is_None negb andb].
  rewrite (int64_in_range id). reflexivity.
Qed.

(** C9. [_from_dataset_id] with the job name "train": the reader raises, and
    no dataset with auto-sharding switched off is returned. *)
Theorem _from_dataset_id_named_job_raises :
  _from_dataset_id (PyStr "parallel_epochs") (PyStr "grpc://host:5000") 7
    (Some (TensorSpec [] DT_INT64)) (JobNameObj (PyStr "train")) None None
    None 1 None None (PyStr "AUTO") "AUTO" = Raise reader_failure.
Proof.
  rewrite (_from_dataset_id_run (PyStr "parallel_epochs")
             (PyStr "grpc://host:5000") "parallel_epochs" 7
             (TensorSpec [] DT_INT64) (JobNameObj (PyStr "train"))
             (Some (JobStr "train")) None None None 1 None None
             (PyStr "AUTO") "AUTO" "grpc" "host:5000"
             eq_refl eq_refl eq_refl eq_refl eq_refl).
  unfold reader_failure. destruct tf2_enabled; reflexivity.
Qed.

(** C10. [register_dataset] sends the pipeline with the [compress] map on
    top and returns the dispatcher's answer, and [from_dataset_id] for an id
    the dispatcher gave raises before any [uncompress] map is added. *)
Theorem register_then_from_dataset_id_raises :
  let r :=
    {| reg_dataset :=
         DebugOptionsDataset
           (PrefetchDataset (MapDataset range_dataset compress AUTOTUNE)
              AUTOTUNE);
       reg_address := "host:5000";
       reg_protocol := "grpc";
       reg_external_state_policy := WARN |} in
  register_dataset (PyStr "grpc://host:5000") range_dataset [] =
    (register_dataset_op r, [r]) /\
  forall dataset_id : int64,
    from_dataset_id (PyStr "parallel_epochs") (PyStr "grpc://host:5000")
      (int64_value dataset_id) (Some (TensorSpec [] DT_INT64))
      (JobNameObj PyNone) None None None 1 None "AUTO" = Raise reader_failure.
Proof.
  intros r. split.
  - apply (_register_dataset_run (PyStr "grpc://host:5000") range_dataset
             (PyStr "AUTO") [] "grpc" "host:5000" eq_refl eq_refl
             (fun _ => eq_refl)).
  - intros id. unfold from_dataset_id.
    cbn [_check_job_name from_dataset_id_job_name bind].
    rewrite (_from_dataset_id_run (PyStr "parallel_epochs")
               (PyStr "grpc://host:5000") "parallel_epochs" (int64_value id)
               (TensorSpec [] DT_INT64) (JobNameObj PyNone) None None None
               None 1 None None (PyStr "AUTO") "AUTO" "grpc" "host:5000"
               eq_refl eq_refl eq_refl eq_refl eq_refl).
    cbn [first_not_int64 option_is_None negb andb].
    rewrite (int64_in_range id). reflexivity.
Qed.

(** ** Further properties: the checks on arguments *)

Lemma ProcessingMode_validate_Ok_iff (mode : pyobj) :
  ProcessingMode_validate mode = Ok tt <->
  mode = PyStr "parallel_epochs" \/ mode = PyStr "distributed_epoch".
Proof.
  unfold ProcessingMode_validate, py_in,
    ProcessingMode_PARALLEL_EPOCHS, ProcessingMode_DISTRIBUTED_EPOCH.
  cbn [existsb].
  destruct (py_eqb mode (PyStr "parallel_epochs")) eqn:E1.
  { apply py_eqb_PyStr in E1. split; [now left | reflexivity]. }
  destruct (py_eqb mode (PyStr "distributed_epoch")) eqn:E2.
  { apply py_eqb_PyStr in E2. split; [now right | reflexivity]. }
  cbn [orb negb]. split; [discriminate|].
  intros [H | H]; apply py_eqb_PyStr in H; congruence.
Qed.

Lemma py_eqb_PyNone (o : pyobj) : py_eqb o PyNone = true <-> o = PyNone.
Proof. destruct o; simpl; split; congruence. Qed.

Lemma check_compression_Ok_iff (compression : pyobj) :
  check_compression compression = Ok tt <->
  compression = PyStr "AUTO" \/ compression = PyNone.
Proof.
  unfold check_compression, py_in, COMPRESSION_AUTO, COMPRESSION_NONE.
  cbn [existsb].
  destruct (py_eqb compression (PyStr "AUTO")) eqn:E1.
  { apply py_eqb_PyStr in E1. split; [now left | reflexivity]. }
  destruct (py_eqb compression PyNone) eqn:E2.
  { apply py_eqb_PyNone in E2. split; [now right | reflexivity]. }
  cbn [orb negb]. split; [discriminate|].
  intros [H | H]; [apply py_eqb_PyStr in H | apply py_eqb_PyNone in H];
    congruence.
Qed.

Lemma _check_job_name_Ok_iff (job_name : JobName) :
  _check_job_name job_name = Ok tt <->
  job_name = JobNameObj PyNone \/
  exists (c : ascii) (s : string), job_name = JobNameObj (PyStr (String c s)).
Proof.
  split.
  - destruct job_name as [[| z | [|c s] | items] | v]; simpl;
      try discriminate; intros _; [now left | right; now exists c, s].
  - intros [-> | (c & s & ->)]; reflexivity.
Qed.

(** X1. [_check_job_name] returns exactly for None and for a non-empty str;
    the empty str raises "job_name must not be empty", and whatever it
    raises is a ValueError with one message. *)
Theorem _check_job_name_spec (job_name : JobName) :
  (_check_job_name job_name = Ok tt <->
   job_name = JobNameObj PyNone \/
   exists s : string, s <> "" /\ job_name = JobNameObj (PyStr s)) /\
  _check_job_name (JobNameObj (PyStr "")) =
    Raise (ValueError [PyStr "job_name must not be empty"]) /\
  (forall e : exn,
     _check_job_name job_name = Raise e ->
     exists msg : string, e = ValueError [PyStr msg]).
Proof.
  split; [|split; [reflexivity|]].
  - rewrite _check_job_name_Ok_iff. split.
    + intros [H | (c & s & H)]; [now left | right].
      exists (String c s). now split.
    + intros [H | (s & Hs & H)]; [now left | right].
      destruct s as [|c s]; [congruence | now exists c, s].
  - intros e.
    destruct job_name as [[| z | [|c s] | items] | v]; simpl;
      intros H; try discriminate H; injection H as <-; eexists; reflexivity.
Qed.

(** X2. The compression check shared by [_distribute], [_register_dataset]
    and [_from_dataset_id] passes exactly for "AUTO" and None; for any other
    value [_register_dataset] raises a ValueError and registers nothing,
    whatever the service is. *)
Theorem invalid_compression_is_rejected (compression : pyobj) :
  (check_compression compression = Ok tt <->
   compression = PyStr "AUTO" \/ compression = PyNone) /\
  (compression <> PyStr "AUTO" ->
   compression <> PyNone ->
   forall (service : pyobj) (dataset : Dataset) (log : list Registration),
   exists msg : string,
     _register_dataset service dataset compression log =
     (Raise (ValueError [PyStr msg]), log)).
Proof.
  split; [apply check_compression_Ok_iff|].
  intros H1 H2 service dataset log.
  unfold _register_dataset, rpc_bind, lift.
  destruct (check_compression compression) as [[]|e] eqn:E.
  - apply check_compression_Ok_iff in E. destruct E; contradiction.
  - revert E. unfold check_compression.
    destruct (negb _); [|discriminate].
    intros E. injection E as <-. eexists. reflexivity.
Qed.

(** ** Further properties: the reader's constructor *)

(** X3. For a str address and a str protocol the constructor of
    [_DataServiceDatasetV2] has three outcomes only: the ValueError that
    asks for [job_name] when [num_consumers] is set and [job_name] is None;
    else the conversion error of the first of [dataset_id],
    [consumer_index], [num_consumers], [max_outstanding_requests] and
    [max_request_pipelining_per_worker] that does not fit int64; else
    UnboundLocalError.  The ValueError of lines 140-143 is never raised. *)
Theorem _DataServiceDatasetV2__init___outcome
  (dataset_id : Z) (processing_mode address : string)
  (element_spec : ElementSpec) (protocol : string)
  (data_transfer_protocol : option string)
  (job_name : option job_name_t)
  (consumer_index num_consumers : option Z)
  (max_outstanding_requests : option Z)
  (max_request_pipelining_per_worker : Z)
  (task_refresh_interval_hint_ms : option Z) (target_workers : string) :
  _DataServiceDatasetV2__init__ dataset_id processing_mode (PyStr address)
    element_spec (PyStr protocol) data_transfer_protocol job_name
    consumer_index num_consumers max_outstanding_requests
    max_request_pipelining_per_worker task_refresh_interval_hint_ms
    target_workers =
  match num_consumers, job_name with
  | Some _, None =>
      Raise (ValueError
        [PyStr "job_name must be set when setting num_consumers"])
  | _, _ =>
      match first_not_int64
              [Some dataset_id; consumer_index; num_consumers;
               max_outstanding_requests;
               Some max_request_pipelining_per_worker] with
      | Some z => Raise (int64_error z)
      | None => Raise (UnboundLocalError "variant_tensor")
      end
  end.
Proof.
  rewrite _DataServiceDatasetV2__init___run.
  destruct num_consumers, job_name; reflexivity.
Qed.

(** X4. [_DataServiceDatasetV1] cannot be built by [_from_dataset_id]: the
    keyword [target_workers] is not a parameter of its constructor, and the
    call is a TypeError for every argument. *)
Theorem _DataServiceDatasetV1__init___rejects_keyword
  (dataset_id : Z) (processing_mode : string) (address : pyobj)
  (element_spec : ElementSpec) (protocol : pyobj)
  (data_transfer_protocol : option string)
  (job_name : option job_name_t)
  (consumer_index num_consumers : option Z)
  (max_outstanding_requests : option Z)
  (max_request_pipelining_per_worker : Z)
  (task_refresh_interval_hint_ms : option Z) (target_workers : string) :
  _DataServiceDatasetV1__init__ dataset_id processing_mode address
    element_spec protocol data_transfer_protocol job_name consumer_index
    num_consumers max_outstanding_requests max_request_pipelining_per_worker
    task_refresh_interval_hint_ms target_workers =
  Raise (TypeError
    [PyStr "__init__() got an unexpected keyword argument 'target_workers'"]) /\
  bind_keywords V2_parameters reader_keywords = Ok tt.
Proof. split; reflexivity. Qed.

(** ** Further properties: registration *)

(** X5. When [_register_dataset] raises, either it has made no call to the
    dispatcher, or it has made one and the error is the dispatcher's
    answer to it. *)
Theorem _register_dataset_raises_before_rpc (service : pyobj)
  (dataset : Dataset) (compression : pyobj) (log log' : list Registration)
  (e : exn) :
  _register_dataset service dataset compression log = (Raise e, log') ->
  log' = log \/
  exists r : Registration,
    log' = (log ++ [r])%list /\ register_dataset_op r = Raise e.
Proof.
  unfold _register_dataset, rpc_bind, lift, register_dataset_rpc.
  destruct (check_compression compression) as [[]|];
    [|intros H; left; now injection H].
  destruct (service_endpoint service) as [[protocol address]|];
    [|intros H; left; now injection H].
  destruct (if py_eqb compression COMPRESSION_AUTO
            then Ok (MapDataset dataset compress AUTOTUNE)
            else map_identity dataset) as [mapped|];
    [|intros H; left; now injection H].
  destruct (expect_str address) as [a|]; [|intros H; left; now injection H].
  destruct (expect_str protocol) as [p|]; [|intros H; left; now injection H].
  intros H. injection H as H <-. right. eexists. now split.
Qed.

(** X7. For a valid compression and a service that resolves to a str
    protocol and a str address: when the compression is "AUTO", or the
    elements of the dataset are one argument for the identity function,
    [_register_dataset] makes exactly one call to the dispatcher, to that
    address and protocol, with the external state policy of the dataset's
    options or WARN when none is set, and with the pipeline of the dataset
    under one more map, [compress] for "AUTO" and the identity for None, and
    it returns the dispatcher's answer.  Otherwise, for None and elements
    that are tuples of another number of components than one, it raises a
    TypeError and makes no call. *)
Theorem _register_dataset_registers_once (service : pyobj)
  (dataset : Dataset) (compression : pyobj) (log : list Registration)
  (protocol address : string) :
  check_compression compression = Ok tt ->
  service_endpoint service = Ok (PyStr protocol, PyStr address) ->
  if py_eqb compression (PyStr "AUTO") ||
     single_argument (Dataset_element_spec dataset)
  then
    exists r : Registration,
      _register_dataset service dataset compression log =
        (register_dataset_op r, (log ++ [r])%list) /\
      reg_address r = address /\
      reg_protocol r = protocol /\
      reg_external_state_policy r =
        match experimental_external_state_policy (Dataset_options dataset) with
        | None => WARN
        | Some p => p
        end /\
      map_steps (reg_dataset r) =
        (match compression with PyNone => identity | _ => compress end)
        :: map_steps dataset
  else
    exists msg : string,
      _register_dataset service dataset compression log =
      (Raise (TypeError [PyStr msg]), log).
Proof.
  intros Hc Hs.
  destruct (py_eqb compression (PyStr "AUTO") ||
            single_argument (Dataset_element_spec dataset)) eqn:E.
  - eexists. split.
    + apply (_register_dataset_run service dataset compression log
               protocol address Hc Hs).
      intros Hn. unfold COMPRESSION_AUTO in Hn. rewrite Hn in E. exact E.
    + cbn [reg_address reg_protocol reg_external_state_policy reg_dataset
           map_steps].
      repeat split.
      apply check_compression_Ok_iff in Hc.
      destruct Hc as [-> | ->]; reflexivity.
  - apply orb_false_elim in E. destruct E as [E1 E2].
    unfold _register_dataset, rpc_bind, lift, map_identity.
    rewrite Hc, Hs. unfold COMPRESSION_AUTO. rewrite E1, E2.
    eexists. reflexivity.
Qed.

(** ** Further properties: [_distribute] and [distribute] *)

Lemma _distribute_compression_Ok_inv (compression resolved : pyobj)
  (data_transfer_protocol : option string) :
  _distribute_compression compression data_transfer_protocol = Ok resolved ->
  (compression = PyStr "AUTO" /\ data_transfer_protocol = None /\
   resolved = PyStr "AUTO") \/
  (compression = PyStr "AUTO" /\ data_transfer_protocol <> None /\
   resolved = PyNone) \/
  (compression = PyNone /\ resolved = PyNone).
Proof.
  unfold _distribute_compression.
  destruct (check_compression compression) as [[]|] eqn:E; [|discriminate].
  apply check_compression_Ok_iff in E.
  destruct E as [-> | ->], data_transfer_protocol as [p|]; simpl;
    intros H; injection H as <-.
  - right; left. repeat split. discriminate.
  - left. now repeat split.
  - right; right. now split.
  - right; right. now split.
Qed.

(** X8. Whatever [_distribute] resolves the compression to is "AUTO" or
    None, so it passes the check [_register_dataset] and [_from_dataset_id]
    make again; and it is "AUTO" only when "AUTO" was asked for without a
    data transfer protocol. *)
Theorem _distribute_compression_resolved_is_valid
  (compression resolved : pyobj) (data_transfer_protocol : option string) :
  _distribute_compression compression data_transfer_protocol = Ok resolved ->
  check_compression resolved = Ok tt /\
  (resolved = PyStr "AUTO" <->
   compression = PyStr "AUTO" /\ data_transfer_protocol = None).
Proof.
  intros H. apply _distribute_compression_Ok_inv in H.
  destruct H as [(-> & -> & ->) | [(-> & Hp & ->) | (-> & ->)]].
  - split; [reflexivity | now split].
  - split; [reflexivity|]. split; [discriminate | intros [_ H]; contradiction].
  - split; [reflexivity|]. split; [discriminate | intros [H _]; discriminate].
Qed.

(** X9. [distribute] returns a transformation exactly when the job name is
    None or a non-empty str, the processing mode is one of the two valid
    strings and the compression is "AUTO" or None.  The service is not
    looked at until the transformation is applied. *)
Theorem distribute_returns_iff
  (processing_mode service : pyobj) (job_name : JobName)
  (consumer_index num_consumers max_outstanding_requests : option Z)
  (max_request_pipelining_per_worker : Z)
  (data_transfer_protocol : option string) (compression : pyobj)
  (target_workers : string) :
  is_Ok (distribute processing_mode service job_name consumer_index
    num_consumers max_outstanding_requests max_request_pipelining_per_worker
    data_transfer_protocol compression target_workers) = true <->
  (job_name = JobNameObj PyNone \/
   exists (c : ascii) (s : string), job_name = JobNameObj (PyStr (String c s))) /\
  (processing_mode = PyStr "parallel_epochs" \/
   processing_mode = PyStr "distributed_epoch") /\
  (compression = PyStr "AUTO" \/ compression = PyNone).
Proof.
  rewrite <- _check_job_name_Ok_iff, <- ProcessingMode_validate_Ok_iff,
    <- check_compression_Ok_iff.
  unfold distribute, _distribute, _distribute_compression.
  destruct (_check_job_name job_name) as [[]|]; cbn [bind is_Ok];
    [|split; [discriminate | intros (H & _); discriminate]].
  destruct (ProcessingMode_validate processing_mode) as [[]|]; cbn [bind is_Ok];
    [|split; [discriminate | intros (_ & H & _); discriminate]].
  destruct (check_compression compression) as [[]|]; cbn [bind is_Ok];
    [|split; [discriminate | intros (_ & _ & H); discriminate]].
  now split.
Qed.

(** X10. Applying the transformation of [_distribute] to a dataset, for a
    valid compression, a service that resolves to a str protocol and a str
    address and, where the compression is None, elements that are one
    argument for the identity function, calls the dispatcher once with the
    registration of the dataset and then raises, whether the dispatcher
    answers with an id or with an error: the call has been made and no
    dataset comes back. *)
Theorem _apply_fn_registers_then_raises
  (processing_mode service : pyobj) (job_name : JobName)
  (consumer_index num_consumers max_outstanding_requests : option Z)
  (max_request_pipelining_per_worker : Z)
  (task_refresh_interval_hint_ms : option Z)
  (data_transfer_protocol : option string) (compression : pyobj)
  (target_workers : string) (dataset : Dataset) (log : list Registration)
  (protocol address : string) :
  check_compression compression = Ok tt ->
  service_endpoint service = Ok (PyStr protocol, PyStr address) ->
  (compression = PyNone ->
   single_argument (Dataset_element_spec dataset) = true) ->
  exists (e : exn) (r : Registration),
    _apply_fn processing_mode service job_name consumer_index num_consumers
      max_outstanding_requests max_request_pipelining_per_worker
      task_refresh_interval_hint_ms data_transfer_protocol compression
      target_workers dataset log = (Raise e, (log ++ [r])%list) /\
    reg_address r = address /\ reg_protocol r = protocol.
Proof.
  intros Hc Hs Hm.
  assert (Hm' : py_eqb compression COMPRESSION_AUTO = false ->
                single_argument (Dataset_element_spec dataset) = true).
  { intros Hn. apply Hm. apply check_compression_Ok_iff in Hc.
    destruct Hc as [-> | ->]; [discriminate Hn | reflexivity]. }
  pose proof (_register_dataset_run service dataset compression log
                protocol address Hc Hs Hm') as Hr. cbv zeta in Hr.
  unfold _apply_fn, rpc_bind. rewrite Hr.
  match goal with
  | |- context [register_dataset_op ?r] =>
      destruct (register_dataset_op r) as [id|e0]
  end.
  - unfold lift.
    match goal with
    | |- context [_from_dataset_id ?a ?b ?c ?d ?e ?f ?g ?h ?i ?j ?k ?l ?m] =>
        pose proof (_from_dataset_id_never_returns a b c d e f g h i j k l m)
          as Hn;
        destruct (_from_dataset_id a b c d e f g h i j k l m) as [ds|e0];
        [discriminate Hn|]
    end.
    eexists. eexists. split; [reflexivity|]. now split.
  - eexists. eexists. split; [reflexivity|]. now split.
Qed.

(** X11. The transformation [distribute] returns never yields a dataset,
    for any dataset and any state of the dispatcher. *)
Theorem distribute_transformation_never_returns
  (processing_mode service : pyobj) (job_name : JobName)
  (consumer_index num_consumers max_outstanding_requests : option Z)
  (max_request_pipelining_per_worker : Z)
  (data_transfer_protocol : option string) (compression : pyobj)
  (target_workers : string) (apply_fn : Dataset -> rpc Dataset)
  (dataset : Dataset) (log : list Registration) :
  distribute processing_mode service job_name consumer_index num_consumers
    max_outstanding_requests max_request_pipelining_per_worker
    data_transfer_protocol compression target_workers = Ok apply_fn ->
  is_Ok (fst (apply_fn dataset log)) = false.
Proof.
  unfold distribute, _distribute.
  destruct (_check_job_name job_name) as [[]|]; [|discriminate].
  destruct (ProcessingMode_validate processing_mode) as [[]|]; [|discriminate].
  destruct (_distribute_compression compression data_transfer_protocol)
    as [resolved|]; [|discriminate].
  cbn [bind]. intros H. injection H as <-.
  apply _apply_fn_never_returns.
Qed.

(** X12. The public [from_dataset_id] never returns a dataset. *)
Theorem from_dataset_id_never_returns
  (processing_mode service : pyobj) (dataset_id : Z)
  (element_spec : option ElementSpec) (job_name : JobName)
  (consumer_index num_consumers max_outstanding_requests : option Z)
  (max_request_pipelining_per_worker : Z)
  (data_transfer_protocol : option string) (target_workers : string) :
  is_Ok (from_dataset_id processing_mode service dataset_id element_spec
    job_name consumer_index num_consumers max_outstanding_requests
    max_request_pipelining_per_worker data_transfer_protocol target_workers)
  = false.
Proof.
  unfold from_dataset_id.
  destruct (_check_job_name job_name) as [[]|]; [|reflexivity].
  destruct (from_dataset_id_job_name dataset_id job_name) as [j|];
    [|reflexivity].
  cbn [bind]. apply _from_dataset_id_never_returns.
Qed.

(** X13. [_from_dataset_id] asks for an element spec before it looks at the
    service: with a valid processing mode, a valid compression and a job
    name of an accepted type, [element_spec=None] raises the ValueError that
    names it. *)
Theorem _from_dataset_id_requires_element_spec
  (processing_mode service : pyobj) (dataset_id : Z) (job_name : JobName)
  (checked : option job_name_t)
  (consumer_index num_consumers max_outstanding_requests : option Z)
  (max_request_pipelining_per_worker : Z)
  (task_refresh_interval_hint_ms : option Z)
  (data_transfer_protocol : option string) (compression : pyobj)
  (target_workers : string) :
  ProcessingMode_validate processing_mode = Ok tt ->
  check_compression compression = Ok tt ->
  check_job_name_type job_name = Ok checked ->
  _from_dataset_id processing_mode service dataset_id None job_name
    consumer_index num_consumers max_outstanding_requests
    max_request_pipelining_per_worker task_refresh_interval_hint_ms
    data_transfer_protocol compression target_workers =
  Raise (ValueError [PyStr "element_spec must not be None"]).
Proof.
  intros H1 H2 H3. unfold _from_dataset_id. now rewrite H1, H2, H3.
Qed.

(** X14. A job name that passes [_check_job_name] in [from_dataset_id], for
    a dataset id that fits int64, is handed on in a form that passes the
    type test of [_from_dataset_id]: a str becomes a string tensor, which is
    not None; None stays None. *)
Theorem from_dataset_id_job_name_is_accepted (dataset_id : Z)
  (job_name : JobName) :
  _check_job_name job_name = Ok tt ->
  in_int64 dataset_id = true ->
  exists derived : JobName,
    from_dataset_id_job_name dataset_id job_name = Ok derived /\
    match job_name with
    | JobNameObj PyNone =>
        derived = JobNameObj PyNone /\ check_job_name_type derived = Ok None
    | _ =>
        exists name : string,
          derived = JobNameTensor name /\
          check_job_name_type derived = Ok (Some (JobTensor name))
    end.
Proof.
  intros H Hid. apply _check_job_name_Ok_iff in H.
  destruct H as [-> | (c & s & ->)].
  - eexists. split; [reflexivity|]. now split.
  - unfold from_dataset_id_job_name.
    rewrite (effective_job_name_eq dataset_id (String c s) Hid). cbn [bind].
    eexists. split; [reflexivity|]. eexists. now split.
Qed.

(** ** Further properties: [str.split] and service strings *)

Lemma strip_prefix_app_r (p x r y : string) :
  strip_prefix p x = Some r -> strip_prefix p (x ++ y) = Some (r ++ y).
Proof.
  revert x; induction p as [|a p IH]; intros x H; simpl in *.
  - now injection H as ->.
  - destruct x as [|b x]; [discriminate|]. simpl.
    destruct (Ascii.eqb a b); [now apply IH | discriminate].
Qed.

(** The text before the leftmost occurrence holds no occurrence. *)
Lemma find_sep_before_count (c : ascii) (sep' s before after : string) :
  find_sep (String c sep') s = Some (before, after) ->
  count_occ (String c sep') before = 0.
Proof.
  revert before; induction s as [|d s IH]; intros before H.
  - cbn [find_sep strip_prefix] in H. discriminate.
  - cbn [find_sep] in H.
    destruct (strip_prefix (String c sep') (String d s)) eqn:E.
    + injection H as <- <-. reflexivity.
    + destruct (find_sep (String c sep') s) as [[b a]|] eqn:F; [|discriminate].
      injection H as <- <-. cbn [count_occ]. rewrite (IH b eq_refl).
      destruct (strip_prefix (String c sep') (String d b)) eqn:G;
        [|reflexivity].
      apply (strip_prefix_app_r _ _ _ (String c sep' ++ a)) in G.
      apply find_sep_app in F. rewrite F in E.
      change (String d (b ++ String c sep' ++ a))
        with (String d b ++ String c sep' ++ a) in E.
      congruence.
Qed.

Lemma split_nonempty_cons (c : ascii) (sep' s : string) :
  exists (piece : string) (pieces : list string),
    split_nonempty c sep' s = piece :: pieces.
Proof.
  rewrite split_nonempty_eq.
  destruct (find_sep (String c sep') s) as [[b a]|]; eexists; eexists;
    reflexivity.
Qed.

(** X15. [s.split(sep)] followed by [sep.join] gives [s] back, and no piece
    of the split holds the separator. *)
Theorem split_nonempty_join (c : ascii) (sep' s : string) :
  String.concat (String c sep') (split_nonempty c sep' s) = s /\
  Forall (fun piece => count_occ (String c sep') piece = 0)
         (split_nonempty c sep' s).
Proof.
  remember (String.length s) as n eqn:Hn.
  revert s Hn; induction n as [n IH] using lt_wf_ind; intros s Hn.
  rewrite split_nonempty_eq.
  destruct (find_sep (String c sep') s) as [[b a]|] eqn:F.
  - destruct (IH (String.length a)
                (eq_ind_r (fun m => String.length a < m)
                          (find_sep_shorter _ _ _ _ _ F) Hn)
                a eq_refl) as [J P].
    split.
    + destruct (split_nonempty_cons c sep' a) as (x & xs & E).
      rewrite E in J |- *. cbn [String.concat]. cbn [String.concat] in J.
      rewrite J. symmetry. now apply find_sep_app.
    + constructor; [|exact P]. now apply find_sep_before_count in F.
  - split; [reflexivity|].
    constructor; [|constructor]. now apply find_sep_None_count.
Qed.

(** X16. What [_parse_service] returns for a string: the string is not
    empty, the address holds no "://", and either the string is the
    protocol, "://" and the address, with no "://" in the protocol, or the
    string holds no "://", the address is the whole string and the protocol
    is the default one. *)
Theorem _parse_service_returns (s protocol address : string) :
  _parse_service (PyStr s) = Ok (protocol, address) ->
  s <> "" /\
  count_occ "://" address = 0 /\
  ((s = protocol ++ "://" ++ address /\ count_occ "://" protocol = 0) \/
   (count_occ "://" s = 0 /\ address = s /\
    protocol = TF_DATA_DefaultProtocol)).
Proof.
  destruct s as [|c0 s0]; [discriminate|].
  parse_nonempty. rewrite split_nonempty_eq.
  destruct (find_sep "://" (String c0 s0)) as [[b a]|] eqn:F.
  - rewrite split_nonempty_eq.
    destruct (find_sep "://" a) as [[b' a']|] eqn:G.
    + destruct (split_nonempty_cons ":" "//" a') as (x & xs & E).
      rewrite E. discriminate.
    + intros H. injection H as <- <-.
      split; [discriminate|]. split; [now apply find_sep_None_count|].
      left. split; [now apply find_sep_app|].
      now apply find_sep_before_count in F.
  - intros H. injection H as <- <-.
    split; [discriminate|]. split; [now apply find_sep_None_count|].
    right. split; [now apply find_sep_None_count | now split].
Qed.

Lemma strip_sep_straddle (c : ascii) (p rest : string) :
  strip_prefix "://" (String c p) = None ->
  strip_prefix "://" (String c (p ++ "://" ++ rest)) = None.
Proof.
  cbn [strip_prefix].
  destruct (Ascii.eqb ":" c); [|reflexivity].
  destruct p as [|d p]; [reflexivity|]. cbn [append].
  destruct (Ascii.eqb "/" d); [|reflexivity].
  destruct p as [|e p]; [reflexivity|]. cbn [append].
  destruct (Ascii.eqb "/" e); [discriminate | reflexivity].
Qed.

Lemma find_sep_leftmost (p rest : string) :
  count_occ "://" p = 0 ->
  find_sep "://" (p ++ "://" ++ rest) = Some (p, rest).
Proof.
  induction p as [|c p IH]; intros H.
  - reflexivity.
  - cbn [count_occ] in H.
    destruct (strip_prefix "://" (String c p)) eqn:E; [discriminate|].
    change (String c p ++ "://" ++ rest)
      with (String c (p ++ "://" ++ rest)).
    cbn [find_sep]. rewrite (strip_sep_straddle c p rest E).
    now rewrite (IH H).
Qed.

(** X17. Writing a protocol and an address that hold no "://" as
    [protocol://address] and parsing the result gives the two back. *)
Theorem _parse_service_round_trip (protocol address : string) :
  count_occ "://" protocol = 0 ->
  count_occ "://" address = 0 ->
  _parse_service (PyStr (protocol ++ "://" ++ address)) =
  Ok (protocol, address).
Proof.
  intros Hp Ha.
  assert (Hs : split_nonempty ":" "//" (protocol ++ "://" ++ address) =
               [protocol; address]).
  { rewrite split_nonempty_eq, (find_sep_leftmost protocol address Hp).
    now rewrite (split_no_sep address Ha). }
  destruct (protocol ++ "://" ++ address) as [|c s] eqn:E.
  - destruct protocol; discriminate.
  - parse_nonempty. now rewrite Hs.
Qed.

(** ** Further properties: job names scoped by dataset id *)

Lemma string_of_uint_not_slash (d : Decimal.uint) :
  all_chars not_slash (NilEmpty.string_of_uint d) = true.
Proof. induction d; simpl; auto. Qed.

Lemma decimal_not_slash (z : Z) : all_chars not_slash (decimal z) = true.
Proof.
  unfold decimal, NilZero.string_of_int, NilZero.string_of_uint.
  destruct (Z.to_int z) as [d | d]; destruct d; simpl;
    try reflexivity; apply string_of_uint_not_slash.
Qed.

(** Two texts without slash, each followed by a slash and a rest, are equal
    only piece by piece. *)
Lemma append_slash_inj (a b m n : string) :
  all_chars not_slash a = true ->
  all_chars not_slash b = true ->
  a ++ String "/" m = b ++ String "/" n ->
  a = b /\ m = n.
Proof.
  revert b; induction a as [|c a IH]; intros [|d b] Ha Hb H; simpl in *.
  - injection H as ->. now split.
  - injection H as <- _. discriminate Hb.
  - injection H as -> _. discriminate Ha.
  - injection H as -> H.
    apply andb_prop in Ha, Hb. destruct Ha as [_ Ha], Hb as [_ Hb].
    destruct (IH b Ha Hb H) as [-> ->]. now split.
Qed.

(** X18. For dataset ids that fit int64, the job name [from_dataset_id]
    derives determines both the dataset id and the caller's job name: two
    calls derive the same name only for the same id and the same job
    name. *)
Theorem effective_job_name_determines_both (id1 id2 : Z)
  (name1 name2 : string) :
  in_int64 id1 = true ->
  in_int64 id2 = true ->
  (from_dataset_id_job_name id1 (JobNameObj (PyStr name1)) =
   from_dataset_id_job_name id2 (JobNameObj (PyStr name2)) <->
   id1 = id2 /\ name1 = name2).
Proof.
  intros H1 H2. split; [|intros [-> ->]; reflexivity].
  unfold from_dataset_id_job_name.
  rewrite (effective_job_name_eq id1 name1 H1),
          (effective_job_name_eq id2 name2 H2).
  cbn [bind]. intros H.
  assert (E : "dataset_id=/" ++ decimal id1 ++ "/" ++ name1 =
              "dataset_id=/" ++ decimal id2 ++ "/" ++ name2) by congruence.
  cbn [append] in E. repeat (injection E as E).
  destruct (append_slash_inj _ _ _ _ (decimal_not_slash id1)
              (decimal_not_slash id2) E) as [Hid ->].
  split; [now apply decimal_inj | reflexivity].
Qed.

(** ** Further properties: the calls end to end *)

Lemma _parse_service_Ok_iff (s : string) :
  is_Ok (_parse_service (PyStr s)) = true <->
  s <> "" /\ count_occ "://" s <= 1.
Proof.
  destruct s as [|c s].
  - split; [discriminate | intros [H _]; congruence].
  - parse_nonempty.
    destruct (count_occ "://" (String c s)) as [|[|n]] eqn:E.
    + rewrite (split_no_sep _ E). split; [|reflexivity].
      intros _. split; [discriminate | lia].
    + destruct (split_one_sep _ E) as (p & a & _ & ->).
      split; [|reflexivity]. intros _. split; [discriminate | lia].
    + destruct (split_many_sep (String c s)) as (p1 & p2 & p3 & rest & ->);
        [lia|].
      split; [discriminate | intros [_ H]; lia].
Qed.

(** X6. The public [register_dataset], given the service as a string, calls
    the dispatcher exactly when the string is not empty and holds at most
    one "://": then it makes one call, with the pipeline under the
    [compress] map, and returns the dispatcher's answer; otherwise it raises
    and makes no call. *)
Theorem register_dataset_calls_dispatcher_iff (s : string) (dataset : Dataset)
  (log : list Registration) :
  (s <> "" ->
   count_occ "://" s <= 1 ->
   exists r : Registration,
     register_dataset (PyStr s) dataset log =
       (register_dataset_op r, (log ++ [r])%list) /\
     map_steps (reg_dataset r) = compress :: map_steps dataset) /\
  (s = "" \/ 1 < count_occ "://" s ->
   exists e : exn, register_dataset (PyStr s) dataset log = (Raise e, log)).
Proof.
  pose proof (_parse_service_Ok_iff s) as Hiff.
  unfold register_dataset. split.
  - intros Hne Hc.
    destruct (_parse_service (PyStr s)) as [[protocol address]|e] eqn:E;
      [|discriminate (proj2 Hiff (conj Hne Hc))].
    eexists. split.
    + apply (_register_dataset_run (PyStr s) dataset (PyStr "AUTO") log
               protocol address eq_refl).
      * cbn [service_endpoint]. now rewrite E.
      * discriminate.
    + reflexivity.
  - intros Hbad.
    destruct (_parse_service (PyStr s)) as [[protocol address]|e] eqn:E.
    + destruct (proj1 Hiff eq_refl) as [Hne Hc].
      destruct Hbad as [-> | Hbad]; [congruence | lia].
    + exists e. unfold _register_dataset, rpc_bind, lift.
      cbn [service_endpoint]. now rewrite E.
Qed.

Lemma _distribute_compression_resolved_is_valid'
  (compression resolved : pyobj) (data_transfer_protocol : option string) :
  _distribute_compression compression data_transfer_protocol = Ok resolved ->
  check_compression resolved = Ok tt.
Proof.
  intros H. apply _distribute_compression_Ok_inv in H.
  destruct H as [(_ & _ & ->) | [(_ & _ & ->) | (_ & ->)]]; reflexivity.
Qed.

(** What applying the closure of [_distribute] does after the registration
    has been sent. *)
Lemma _apply_fn_after_registration
  (processing_mode service : pyobj) (job_name : JobName)
  (consumer_index num_consumers max_outstanding_requests : option Z)
  (max_request_pipelining_per_worker : Z)
  (task_refresh_interval_hint_ms : option Z)
  (data_transfer_protocol : option string) (compression : pyobj)
  (target_workers : string) (dataset : Dataset) (log : list Registration)
  (r : Registration) :
  _register_dataset service dataset compression log =
    (register_dataset_op r, (log ++ [r])%list) ->
  exists e : exn,
    _apply_fn processing_mode service job_name consumer_index num_consumers
      max_outstanding_requests max_request_pipelining_per_worker
      task_refresh_interval_hint_ms data_transfer_protocol compression
      target_workers dataset log = (Raise e, (log ++ [r])%list).
Proof.
  intros Hr. unfold _apply_fn, rpc_bind. rewrite Hr.
  destruct (register_dataset_op r) as [id|e0]; [|now exists e0].
  unfold lift.
  match goal with
  | |- context [_from_dataset_id ?a ?b ?c ?d ?e ?f ?g ?h ?i ?j ?k ?l ?m] =>
      pose proof (_from_dataset_id_never_returns a b c d e f g h i j k l m)
        as Hn;
      destruct (_from_dataset_id a b c d e f g h i j k l m) as [ds|e0];
      [discriminate Hn|]
  end.
  now exists e0.
Qed.

(** X19. When [_distribute] returns a transformation and the service
    resolves to a str protocol and a str address, applying it does one of
    three things.  For "AUTO" without a data transfer protocol it sends the
    pipeline under the [compress] map and then raises.  Otherwise (None, or
    "AUTO" with a data transfer protocol) it sends the pipeline under the
    identity map and then raises, if the elements are one argument for the
    identity function; and if they are tuples of another number of
    components than one, it raises a TypeError without any call to the
    dispatcher. *)
Theorem _distribute_registers_resolved_compression
  (processing_mode service : pyobj) (job_name : JobName)
  (consumer_index num_consumers max_outstanding_requests : option Z)
  (max_request_pipelining_per_worker : Z)
  (task_refresh_interval_hint_ms : option Z)
  (data_transfer_protocol : option string) (compression : pyobj)
  (target_workers : string) (apply_fn : Dataset -> rpc Dataset)
  (dataset : Dataset) (log : list Registration)
  (protocol address : string) :
  _distribute processing_mode service job_name consumer_index num_consumers
    max_outstanding_requests max_request_pipelining_per_worker
    task_refresh_interval_hint_ms data_transfer_protocol compression
    target_workers = Ok apply_fn ->
  service_endpoint service = Ok (PyStr protocol, PyStr address) ->
  if py_eqb compression (PyStr "AUTO") &&
     option_is_None data_transfer_protocol
  then
    exists (e : exn) (r : Registration),
      apply_fn dataset log = (Raise e, (log ++ [r])%list) /\
      map_steps (reg_dataset r) = compress :: map_steps dataset
  else if single_argument (Dataset_element_spec dataset)
  then
    exists (e : exn) (r : Registration),
      apply_fn dataset log = (Raise e, (log ++ [r])%list) /\
      map_steps (reg_dataset r) = identity :: map_steps dataset
  else
    exists msg : string,
      apply_fn dataset log = (Raise (TypeError [PyStr msg]), log).
Proof.
  unfold _distribute.
  destruct (ProcessingMode_validate processing_mode) as [[]|]; [|discriminate].
  destruct (_distribute_compression compression data_transfer_protocol)
    as [resolved|] eqn:E; [|discriminate].
  cbn [bind]. intros H Hs. injection H as <-.
  pose proof (_distribute_compression_resolved_is_valid' _ _ _ E) as Hv.
  apply _distribute_compression_Ok_inv in E.
  assert (Hcase :
    (py_eqb compression (PyStr "AUTO") &&
     option_is_None data_transfer_protocol = true /\
     resolved = PyStr "AUTO") \/
    (py_eqb compression (PyStr "AUTO") &&
     option_is_None data_transfer_protocol = false /\
     resolved = PyNone)).
  { destruct E as [(-> & -> & ->) | [(-> & Hp & ->) | (-> & ->)]].
    - now left.
    - right. destruct data_transfer_protocol; [now split | contradiction].
    - right. now split. }
  destruct Hcase as [[-> ->] | [-> ->]].
  - pose proof (_register_dataset_run service dataset (PyStr "AUTO") log
                  protocol address Hv Hs (fun _ => ltac:(discriminate)))
      as Hr.
    destruct (_apply_fn_after_registration processing_mode service job_name
                consumer_index num_consumers max_outstanding_requests
                max_request_pipelining_per_worker
                task_refresh_interval_hint_ms data_transfer_protocol
                (PyStr "AUTO") target_workers dataset log _ Hr) as (e & He).
    eexists. eexists. split; [exact He | reflexivity].
  - destruct (single_argument (Dataset_element_spec dataset)) eqn:Hone.
    + pose proof (_register_dataset_run service dataset PyNone log
                    protocol address Hv Hs (fun _ => Hone)) as Hr.
      destruct (_apply_fn_after_registration processing_mode service job_name
                  consumer_index num_consumers max_outstanding_requests
                  max_request_pipelining_per_worker
                  task_refresh_interval_hint_ms data_transfer_protocol
                  PyNone target_workers dataset log _ Hr) as (e & He).
      eexists. eexists. split; [exact He | reflexivity].
    + unfold _apply_fn, rpc_bind, _register_dataset, lift, map_identity.
      rewrite Hv, Hs. cbn [py_eqb COMPRESSION_AUTO]. rewrite Hone.
      eexists. reflexivity.
Qed.

(** X20. With a valid processing mode and compression, a job name of an
    accepted type, an element spec and a service that resolves to a str
    protocol and a str address, [_from_dataset_id] raises what the reader's
    constructor raises.  Under TF2: the ValueError that asks for [job_name]
    when [num_consumers] is set without one; else the conversion error of
    the first of [dataset_id], [consumer_index], [num_consumers],
    [max_outstanding_requests] and [max_request_pipelining_per_worker] that
    does not fit int64; else UnboundLocalError.  Under TF1: the TypeError
    for the keyword [target_workers]. *)
Theorem _from_dataset_id_outcome
  (processing_mode service : pyobj) (dataset_id : Z)
  (element_spec : ElementSpec) (job_name : JobName)
  (checked : option job_name_t)
  (consumer_index num_consumers max_outstanding_requests : option Z)
  (max_request_pipelining_per_worker : Z)
  (task_refresh_interval_hint_ms : option Z)
  (data_transfer_protocol : option string) (compression : pyobj)
  (target_workers : string) (protocol address : string) :
  ProcessingMode_validate processing_mode = Ok tt ->
  check_compression compression = Ok tt ->
  check_job_name_type job_name = Ok checked ->
  service_endpoint service = Ok (PyStr protocol, PyStr address) ->
  _from_dataset_id processing_mode service dataset_id (Some element_spec)
    job_name consumer_index num_consumers max_outstanding_requests
    max_request_pipelining_per_worker task_refresh_interval_hint_ms
    data_transfer_protocol compression target_workers =
  Raise
    (if tf2_enabled then
       match num_consumers, checked with
       | Some _, None =>
           ValueError [PyStr "job_name must be set when setting num_consumers"]
       | _, _ =>
           match first_not_int64
                   [Some dataset_id; consumer_index; num_consumers;
                    max_outstanding_requests;
                    Some max_request_pipelining_per_worker] with
           | Some z => int64_error z
           | None => UnboundLocalError "variant_tensor"
           end
       end
     else
       TypeError
         [PyStr "__init__() got an unexpected keyword argument 'target_workers'"]).
Proof.
  intros Hm Hc Hj Hs.
  assert (Hmode : exists mode, str_of_mode processing_mode = Ok mode).
  { apply ProcessingMode_validate_Ok_iff in Hm.
    destruct Hm as [-> | ->]; eexists; reflexivity. }
  destruct Hmode as [mode Hmode].
  rewrite (_from_dataset_id_run processing_mode service mode dataset_id
             element_spec job_name checked consumer_index num_consumers
             max_outstanding_requests max_request_pipelining_per_worker
             task_refresh_interval_hint_ms data_transfer_protocol compression
             target_workers protocol address Hm Hmode Hc Hj Hs).
  destruct tf2_enabled; [|reflexivity].
  destruct num_consumers, checked; reflexivity.
Qed.

End DataServiceOps.

(** ** The theorems at concrete arguments *)

Lemma ProcessingMode_validate_spec_witness :
  PyStr "round_robin" <> PyStr "parallel_epochs" /\
  PyStr "round_robin" <> PyStr "distributed_epoch" /\
  exists msg : string,
    ProcessingMode_validate example_format (PyStr "round_robin") =
      Raise (ValueError [PyStr msg]) /\
    contains "parallel_epochs" msg /\
    contains "distributed_epoch" msg.
Proof.
  split; [discriminate|]. split; [discriminate|].
  apply (proj2 (ProcessingMode_validate_spec example_format
                  (PyStr "round_robin"))); discriminate.
Defined.

Lemma _DataServiceDatasetV2__init___unbound_local_witness :
  check_consumer_pair (Some 0%Z) (Some 2%Z) = Ok tt /\
  check_job_name_set (Some 2%Z) (Some (JobStr "train")) = Ok tt /\
  in_int64 3 = true /\
  opt_in_int64 (Some 0%Z) = true /\
  opt_in_int64 (Some 2%Z) = true /\
  opt_in_int64 None = true /\
  in_int64 1 = true /\
  _DataServiceDatasetV2__init__ example_format (fun _ _ _ => true) minus_one
    example_convert 3 "parallel_epochs" (PyStr "host:5000")
    (TensorSpec [] DT_INT64) (PyStr "grpc") None (Some (JobStr "train"))
    (Some 0%Z) (Some 2%Z) None 1 None "AUTO" =
  Raise (UnboundLocalError "variant_tensor") /\
  (forall any_address any_protocol : pyobj,
     is_Ok (_DataServiceDatasetV2__init__ example_format (fun _ _ _ => true)
       minus_one example_convert 3 "parallel_epochs" any_address
       (TensorSpec [] DT_INT64) any_protocol None (Some (JobStr "train"))
       (Some 0%Z) (Some 2%Z) None 1 None "AUTO") = false).
Proof.
  repeat (split; [reflexivity|]).
  apply (_DataServiceDatasetV2__init___unbound_local example_format
           (fun _ _ _ => true) minus_one example_convert 3 "parallel_epochs"
           "host:5000" (TensorSpec [] DT_INT64) "grpc" None
           (Some (JobStr "train")) (Some 0%Z) (Some 2%Z) None 1 None "AUTO");
    reflexivity.
Defined.

Lemma _parse_service_spec_witness :
  (count_occ "://" "grpc://host:5000" = 1 /\
   exists protocol address : string,
     "grpc://host:5000" = protocol ++ "://" ++ address /\
     _parse_service example_format "grpc" (PyStr "grpc://host:5000") =
       Ok (protocol, address)) /\
  ("host:5000" <> "" /\
   count_occ "://" "host:5000" = 0 /\
   _parse_service example_format "grpc" (PyStr "host:5000") =
     Ok ("grpc", "host:5000")) /\
  (1 < count_occ "://" "a://b://c" /\
   _parse_service example_format "grpc" (PyStr "a://b://c") =
     Raise (ValueError
       [PyStr "malformed service string has multiple '://': a://b://c"])) /\
  (is_string (PyInt 5000) = false /\
   exists msg : string,
     _parse_service example_format "grpc" (PyInt 5000) =
       Raise (ValueError [PyStr msg])).
Proof.
  destruct (_parse_service_spec example_format "grpc")
    as (one & zero & many & _ & other).
  split; [split; [reflexivity | apply one; reflexivity]|].
  split; [split; [discriminate | split;
                   [reflexivity | apply zero; [discriminate | reflexivity]]]|].
  split; [split; [simpl; lia | apply many; simpl; lia]|].
  split; [reflexivity | apply other; reflexivity].
Defined.

Lemma from_dataset_id_job_name_spec_witness :
  in_int64 7 = true /\
  in_int64 8 = true /\
  7%Z <> 8%Z /\
  from_dataset_id_job_name example_format 7 (JobNameObj (PyStr "train")) =
    Ok (JobNameTensor "dataset_id=/7/train") /\
  from_dataset_id_job_name example_format 7 (JobNameObj (PyStr "train")) <>
  from_dataset_id_job_name example_format 8 (JobNameObj (PyStr "train")) /\
  ("train" <> "" ->
   forall (processing_mode service : pyobj)
          (element_spec : option ElementSpec)
          (consumer_index num_consumers max_outstanding_requests : option Z)
          (max_request_pipelining_per_worker : Z)
          (data_transfer_protocol : option string) (target_workers : string),
     from_dataset_id example_format "grpc" true (fun _ _ _ => true) minus_one
       example_convert processing_mode service 7 element_spec
       (JobNameObj (PyStr "train")) consumer_index num_consumers
       max_outstanding_requests max_request_pipelining_per_worker
       data_transfer_protocol target_workers =
     _from_dataset_id example_format "grpc" true (fun _ _ _ => true)
       minus_one example_convert processing_mode service 7 element_spec
       (JobNameTensor "dataset_id=/7/train") consumer_index num_consumers
       max_outstanding_requests max_request_pipelining_per_worker None
       data_transfer_protocol (PyStr "AUTO") target_workers).
Proof.
  split; [reflexivity|]. split; [reflexivity|]. split; [discriminate|].
  apply (from_dataset_id_job_name_spec example_format "grpc" true
           (fun _ _ _ => true) minus_one example_convert 7 8 "train");
    [reflexivity | reflexivity | discriminate].
Defined.

Lemma _check_job_name_spec_witness :
  _check_job_name example_format (JobNameTensor "train") =
    Raise (ValueError
      [PyStr "job_name must be a string, but job_name was of type <type>. job_name=train"]) /\
  exists msg : string,
    ValueError
      [PyStr "job_name must be a string, but job_name was of type <type>. job_name=train"] =
    ValueError [PyStr msg].
Proof.
  split; [reflexivity|].
  apply (proj2 (proj2 (_check_job_name_spec example_format
                         (JobNameTensor "train")))).
  reflexivity.
Defined.

Lemma invalid_compression_is_rejected_witness :
  PyStr "GZIP" <> PyStr "AUTO" /\
  PyStr "GZIP" <> PyNone /\
  exists msg : string,
    _register_dataset example_format "grpc" minus_one example_dispatcher
      (PyStr "grpc://host:5000") range_dataset (PyStr "GZIP") [] =
    (Raise (ValueError [PyStr msg]), []).
Proof.
  split; [discriminate|]. split; [discriminate|].
  apply (proj2 (invalid_compression_is_rejected example_format "grpc"
                  minus_one example_dispatcher (PyStr "GZIP")));
    discriminate.
Defined.

(** A registration the dispatcher cannot be reached for: the call is made,
    and the error is the dispatcher's. *)
Lemma _register_dataset_raises_before_rpc_witness :
  let r :=
    {| reg_dataset :=
         DebugOptionsDataset
           (PrefetchDataset (MapDataset range_dataset compress minus_one)
              minus_one);
       reg_address := "host:5000";
       reg_protocol := "grpc";
       reg_external_state_policy := WARN |} in
  _register_dataset example_format "grpc" minus_one unreachable_dispatcher
    (PyStr "host:5000") range_dataset (PyStr "AUTO") [] =
    (Raise (ValueError [PyStr "<unavailable>"]), [r]) /\
  ([r] = [] \/
   exists r' : Registration,
     [r] = ([] ++ [r'])%list /\
     unreachable_dispatcher r' = Raise (ValueError [PyStr "<unavailable>"])).
Proof.
  intros r. split; [reflexivity|].
  apply (_register_dataset_raises_before_rpc example_format "grpc" minus_one
           unreachable_dispatcher (PyStr "host:5000") range_dataset
           (PyStr "AUTO") [] [r] (ValueError [PyStr "<unavailable>"])).
  reflexivity.
Defined.

Lemma register_dataset_calls_dispatcher_iff_witness :
  ("grpc://host:5000" <> "" /\
   count_occ "://" "grpc://host:5000" <= 1 /\
   exists r : Registration,
     register_dataset example_format "grpc" minus_one example_dispatcher
       (PyStr "grpc://host:5000") range_dataset [] =
       (example_dispatcher r, ([] ++ [r])%list) /\
     map_steps (reg_dataset r) = compress :: map_steps range_dataset) /\
  (("a://b://c" = "" \/ 1 < count_occ "://" "a://b://c") /\
   exists e : exn,
     register_dataset example_format "grpc" minus_one example_dispatcher
       (PyStr "a://b://c") range_dataset [] = (Raise e, [])).
Proof.
  split.
  - split; [discriminate|]. split; [simpl; lia|].
    apply (proj1 (register_dataset_calls_dispatcher_iff example_format "grpc"
                    minus_one example_dispatcher "grpc://host:5000"
                    range_dataset [])); [discriminate | simpl; lia].
  - split; [right; simpl; lia|].
    apply (proj2 (register_dataset_calls_dispatcher_iff example_format "grpc"
                    minus_one example_dispatcher "a://b://c"
                    range_dataset [])).
    right; simpl; lia.
Defined.

(** The identity map on a dataset of scalars, and on a dataset of pairs. *)
Lemma _register_dataset_registers_once_witness :
  check_compression example_format PyNone = Ok tt /\
  service_endpoint example_format "grpc"
    (PyTuple [PyStr "grpc+loas"; PyStr "host:5000"]) =
    Ok (PyStr "grpc+loas", PyStr "host:5000") /\
  (exists r : Registration,
     _register_dataset example_format "grpc" minus_one example_dispatcher
       (PyTuple [PyStr "grpc+loas"; PyStr "host:5000"]) range_dataset PyNone
       [] = (example_dispatcher r, ([] ++ [r])%list) /\
     reg_address r = "host:5000" /\
     reg_protocol r = "grpc+loas" /\
     reg_external_state_policy r = WARN /\
     map_steps (reg_dataset r) = [identity]) /\
  (exists msg : string,
     _register_dataset example_format "grpc" minus_one example_dispatcher
       (PyTuple [PyStr "grpc+loas"; PyStr "host:5000"]) pairs_dataset PyNone
       [] = (Raise (TypeError [PyStr msg]), [])).
Proof.
  split; [reflexivity|]. split; [reflexivity|]. split.
  - apply (_register_dataset_registers_once example_format "grpc" minus_one
             example_dispatcher
             (PyTuple [PyStr "grpc+loas"; PyStr "host:5000"])
             range_dataset PyNone [] "grpc+loas" "host:5000"); reflexivity.
  - apply (_register_dataset_registers_once example_format "grpc" minus_one
             example_dispatcher
             (PyTuple [PyStr "grpc+loas"; PyStr "host:5000"])
             pairs_dataset PyNone [] "grpc+loas" "host:5000"); reflexivity.
Defined.

Lemma _distribute_compression_resolved_is_valid_witness :
  _distribute_compression example_format (PyStr "AUTO") (Some "custom") =
    Ok PyNone /\
  check_compression example_format PyNone = Ok tt /\
  (PyNone = PyStr "AUTO" <->
   PyStr "AUTO" = PyStr "AUTO" /\ Some "custom" = @None string).
Proof.
  split; [reflexivity|].
  apply (_distribute_compression_resolved_is_valid example_format
           (PyStr "AUTO") PyNone (Some "custom")).
  reflexivity.
Defined.

Lemma distribute_returns_iff_witness :
  is_Ok (distribute example_format "grpc" true (fun _ _ _ => true) minus_one
           example_dispatcher example_convert (PyStr "distributed_epoch")
           (PyStr "a://b://c") (JobNameObj (PyStr "train")) None None None 1
           None PyNone "AUTO") = true /\
  (JobNameObj (PyStr "train") = JobNameObj PyNone \/
   exists (c : ascii) (s : string),
     JobNameObj (PyStr "train") = JobNameObj (PyStr (String c s))) /\
  (PyStr "distributed_epoch" = PyStr "parallel_epochs" \/
   PyStr "distributed_epoch" = PyStr "distributed_epoch") /\
  (PyNone = PyStr "AUTO" \/ PyNone = PyNone).
Proof.
  split; [reflexivity|].
  apply (proj1 (distribute_returns_iff example_format "grpc" true
                  (fun _ _ _ => true) minus_one example_dispatcher
                  example_convert (PyStr "distributed_epoch")
                  (PyStr "a://b://c") (JobNameObj (PyStr "train")) None None
                  None 1 None PyNone "AUTO")).
  reflexivity.
Defined.

Lemma _apply_fn_registers_then_raises_witness :
  check_compression example_format PyNone = Ok tt /\
  service_endpoint example_format "grpc" (PyStr "host:5000") =
    Ok (PyStr "grpc", PyStr "host:5000") /\
  (PyNone = PyNone ->
   single_argument (Dataset_element_spec range_dataset) = true) /\
  exists (e : exn) (r : Registration),
    _apply_fn example_format "grpc" true (fun _ _ _ => true) minus_one
      example_dispatcher example_convert (PyStr "parallel_epochs")
      (PyStr "host:5000") (JobNameObj PyNone) None None None 1 None None
      PyNone "AUTO" range_dataset [] = (Raise e, ([] ++ [r])%list) /\
    reg_address r = "host:5000" /\ reg_protocol r = "grpc".
Proof.
  split; [reflexivity|]. split; [reflexivity|]. split; [reflexivity|].
  apply (_apply_fn_registers_then_raises example_format "grpc" true
           (fun _ _ _ => true) minus_one example_dispatcher example_convert
           (PyStr "parallel_epochs") (PyStr "host:5000") (JobNameObj PyNone)
           None None None 1 None None PyNone "AUTO" range_dataset []
           "grpc" "host:5000"); reflexivity.
Defined.

Lemma distribute_transformation_never_returns_witness :
  distribute example_format "grpc" true (fun _ _ _ => true) minus_one
    example_dispatcher example_convert (PyStr "parallel_epochs")
    (PyStr "host:5000") (JobNameObj PyNone) None None None 1 None
    (PyStr "AUTO") "AUTO" =
  Ok (_apply_fn example_format "grpc" true (fun _ _ _ => true) minus_one
        example_dispatcher example_convert (PyStr "parallel_epochs")
        (PyStr "host:5000") (JobNameObj PyNone) None None None 1 None None
        (PyStr "AUTO") "AUTO") /\
  is_Ok (fst (_apply_fn example_format "grpc" true (fun _ _ _ => true)
                minus_one example_dispatcher example_convert
                (PyStr "parallel_epochs") (PyStr "host:5000")
                (JobNameObj PyNone) None None None 1 None None (PyStr "AUTO")
                "AUTO" range_dataset [])) = false.
Proof.
  split; [reflexivity|].
  apply (distribute_transformation_never_returns example_format "grpc" true
           (fun _ _ _ => true) minus_one example_dispatcher example_convert
           (PyStr "parallel_epochs") (PyStr "host:5000") (JobNameObj PyNone)
           None None None 1 None (PyStr "AUTO") "AUTO").
  reflexivity.
Defined.

Lemma _from_dataset_id_requires_element_spec_witness :
  ProcessingMode_validate example_format (PyStr "parallel_epochs") = Ok tt /\
  check_compression example_format (PyStr "AUTO") = Ok tt /\
  check_job_name_type example_format (JobNameObj (PyStr "train")) =
    Ok (Some (JobStr "train")) /\
  _from_dataset_id example_format "grpc" true (fun _ _ _ => true) minus_one
    example_convert (PyStr "parallel_epochs") (PyStr "") 7 None
    (JobNameObj (PyStr "train")) None None None 1 None None (PyStr "AUTO")
    "AUTO" =
  Raise (ValueError [PyStr "element_spec must not be None"]).
Proof.
  split; [reflexivity|]. split; [reflexivity|]. split; [reflexivity|].
  apply (_from_dataset_id_requires_element_spec example_format "grpc" true
           (fun _ _ _ => true) minus_one example_convert
           (PyStr "parallel_epochs") (PyStr "") 7
           (JobNameObj (PyStr "train")) (Some (JobStr "train")));
    reflexivity.
Defined.

Lemma from_dataset_id_job_name_is_accepted_witness :
  _check_job_name example_format (JobNameObj (PyStr "train")) = Ok tt /\
  in_int64 7 = true /\
  exists derived : JobName,
    from_dataset_id_job_name example_format 7 (JobNameObj (PyStr "train")) =
      Ok derived /\
    exists name : string,
      derived = JobNameTensor name /\
      check_job_name_type example_format derived =
        Ok (Some (JobTensor name)).
Proof.
  split; [reflexivity|]. split; [reflexivity|].
  apply (from_dataset_id_job_name_is_accepted example_format 7
           (JobNameObj (PyStr "train"))); reflexivity.
Defined.

Lemma _parse_service_returns_witness :
  _parse_service example_format "grpc" (PyStr "grpc+loas://host:5000") =
    Ok ("grpc+loas", "host:5000") /\
  "grpc+loas://host:5000" <> "" /\
  count_occ "://" "host:5000" = 0 /\
  (("grpc+loas://host:5000" = "grpc+loas" ++ "://" ++ "host:5000" /\
    count_occ "://" "grpc+loas" = 0) \/
   (count_occ "://" "grpc+loas://host:5000" = 0 /\
    "host:5000" = "grpc+loas://host:5000" /\ "grpc+loas" = "grpc")).
Proof.
  split; [reflexivity|].
  apply (_parse_service_returns example_format "grpc" "grpc+loas://host:5000"
           "grpc+loas" "host:5000").
  reflexivity.
Defined.

Lemma _parse_service_round_trip_witness :
  count_occ "://" "grpc" = 0 /\
  count_occ "://" "host:5000" = 0 /\
  _parse_service example_format "local" (PyStr ("grpc" ++ "://" ++ "host:5000")) =
  Ok ("grpc", "host:5000").
Proof.
  split; [reflexivity|]. split; [reflexivity|].
  apply (_parse_service_round_trip example_format "local" "grpc" "host:5000");
    reflexivity.
Defined.

(** Two different dataset ids with one job name, and one dataset id with
    two job names: the derived names differ. *)
Lemma effective_job_name_determines_both_witness :
  in_int64 7 = true /\
  in_int64 8 = true /\
  (from_dataset_id_job_name example_format 7 (JobNameObj (PyStr "train")) =
   from_dataset_id_job_name example_format 8 (JobNameObj (PyStr "train")) <->
   7%Z = 8%Z /\ "train" = "train") /\
  (from_dataset_id_job_name example_format 7 (JobNameObj (PyStr "train")) =
   from_dataset_id_job_name example_format 7 (JobNameObj (PyStr "eval")) <->
   7%Z = 7%Z /\ "train" = "eval").
Proof.
  split; [reflexivity|]. split; [reflexivity|]. split.
  - apply (effective_job_name_determines_both example_format 7 8 "train"
             "train"); reflexivity.
  - apply (effective_job_name_determines_both example_format 7 7 "train"
             "eval"); reflexivity.
Defined.

Lemma _distribute_registers_resolved_compression_witness :
  _distribute example_format "grpc" true (fun _ _ _ => true) minus_one
    example_dispatcher example_convert (PyStr "parallel_epochs")
    (PyStr "host:5000") (JobNameObj PyNone) None None None 1 None
    (Some "custom") (PyStr "AUTO") "AUTO" =
  Ok (_apply_fn example_format "grpc" true (fun _ _ _ => true) minus_one
        example_dispatcher example_convert (PyStr "parallel_epochs")
        (PyStr "host:5000") (JobNameObj PyNone) None None None 1 None
        (Some "custom") PyNone "AUTO") /\
  service_endpoint example_format "grpc" (PyStr "host:5000") =
    Ok (PyStr "grpc", PyStr "host:5000") /\
  (exists (e : exn) (r : Registration),
     _apply_fn example_format "grpc" true (fun _ _ _ => true) minus_one
       example_dispatcher example_convert (PyStr "parallel_epochs")
       (PyStr "host:5000") (JobNameObj PyNone) None None None 1 None
       (Some "custom") PyNone "AUTO" range_dataset [] =
       (Raise e, ([] ++ [r])%list) /\
     map_steps (reg_dataset r) = identity :: map_steps range_dataset) /\
  (exists msg : string,
     _apply_fn example_format "grpc" true (fun _ _ _ => true) minus_one
       example_dispatcher example_convert (PyStr "parallel_epochs")
       (PyStr "host:5000") (JobNameObj PyNone) None None None 1 None
       (Some "custom") PyNone "AUTO" pairs_dataset [] =
     (Raise (TypeError [PyStr msg]), [])).
Proof.
  split; [reflexivity|]. split; [reflexivity|]. split.
  - apply (_distribute_registers_resolved_compression example_format "grpc"
             true (fun _ _ _ => true) minus_one example_dispatcher
             example_convert (PyStr "parallel_epochs") (PyStr "host:5000")
             (JobNameObj PyNone) None None None 1 None (Some "custom")
             (PyStr "AUTO") "AUTO" _ range_dataset [] "grpc" "host:5000");
      reflexivity.
  - apply (_distribute_registers_resolved_compression example_format "grpc"
             true (fun _ _ _ => true) minus_one example_dispatcher
             example_convert (PyStr "parallel_epochs") (PyStr "host:5000")
             (JobNameObj PyNone) None None None 1 None (Some "custom")
             (PyStr "AUTO") "AUTO" _ pairs_dataset [] "grpc" "host:5000");
      reflexivity.
Defined.

Lemma _from_dataset_id_outcome_witness :
  ProcessingMode_validate example_format (PyStr "distributed_epoch") = Ok tt /\
  check_compression example_format PyNone = Ok tt /\
  check_job_name_type example_format (JobNameObj (PyStr "train")) =
    Ok (Some (JobStr "train")) /\
  service_endpoint example_format "grpc" (PyStr "grpc://host:5000") =
    Ok (PyStr "grpc", PyStr "host:5000") /\
  _from_dataset_id example_format "grpc" true (fun _ _ _ => true) minus_one
    example_convert (PyStr "distributed_epoch") (PyStr "grpc://host:5000")
    9223372036854775808 (Some (TensorSpec [] DT_INT64))
    (JobNameObj (PyStr "train")) (Some 0%Z) (Some 2%Z) None 1 None None
    PyNone "AUTO" =
  Raise (ValueError [PyStr "<not an int64>"]).
Proof.
  split; [reflexivity|]. split; [reflexivity|]. split; [reflexivity|].
  split; [reflexivity|].
  apply (_from_dataset_id_outcome example_format "grpc" true
           (fun _ _ _ => true) minus_one example_convert
           (PyStr "distributed_epoch") (PyStr "grpc://host:5000")
           9223372036854775808 (TensorSpec [] DT_INT64)
           (JobNameObj (PyStr "train")) (Some (JobStr "train")) (Some 0%Z)
           (Some 2%Z) None 1 None None PyNone "AUTO" "grpc" "host:5000");
    reflexivity.
Defined.

